(** * Theme providers: a shallow embedding of [src/theme-provider.tsx]

    The file holds two React theme providers.  The first one (lines 1-174,
    module [A] below) validates what it reads from storage, supports a forced
    theme and an optional cookie mirror.  The second one (lines 175-378,
    module [B]) supports view transitions with a circular reveal.

    React state is modelled by explicit state passing: a component's
    [useState] cells are a record, an event handler or an effect is a function
    from the cells and the browser to the new cells and the new browser.
    The browser is a record holding the DOM pieces the code touches, the
    [localStorage] area, the pending asynchronous callbacks and a log of the
    DOM operations performed so far. *)

From Stdlib Require Import ZArith Reals Lra Lia.
From stdpp Require Import base option list strings gmap.

Local Open Scope string_scope.

(** ** Values *)

(** [type Theme = "light" | "dark" | "system"] *)
Inductive Theme : Type := Light | Dark | System.

(** [type ResolvedTheme = "light" | "dark"] *)
Inductive ResolvedTheme : Type := RLight | RDark.

Global Instance Theme_eq_dec : EqDecision Theme.
Proof. solve_decision. Defined.

Global Instance ResolvedTheme_eq_dec : EqDecision ResolvedTheme.
Proof. solve_decision. Defined.

(** The runtime value of a theme is its string. *)
Definition theme_str (t : Theme) : string :=
  match t with Light => "light" | Dark => "dark" | System => "system" end.

Definition resolved_str (r : ResolvedTheme) : string :=
  match r with RLight => "light" | RDark => "dark" end.

(** [ResolvedTheme] is a subtype of [Theme]. *)
Definition theme_of_resolved (r : ResolvedTheme) : Theme :=
  match r with RLight => Light | RDark => Dark end.

(** ** Exceptions *)

Inductive Error : Type :=
| ReferenceError (identifier : string)
| StorageError
| JsError (message : string).

Inductive Result (A : Type) : Type :=
| Ok (a : A)
| Throw (e : Error).
Arguments Ok {A} a.
Arguments Throw {A} e.

(** ** [localStorage] *)

(** Access can be denied as a whole (every call throws), or writes can fail
    because the quota is used up. *)
Record Storage : Type := mkStorage {
  ls_denied : bool;
  ls_full : bool;
  ls_items : gmap string string
}.

(** [localStorage.getItem(key)]: [None] is JavaScript's [null]. *)
Definition getItem (s : Storage) (key : string) : Result (option string) :=
  if ls_denied s then Throw StorageError else Ok (ls_items s !! key).

(** [localStorage.setItem(key, value)] *)
Definition setItem (s : Storage) (key value : string) : Result Storage :=
  if ls_denied s || ls_full s then Throw StorageError
  else Ok {| ls_denied := ls_denied s; ls_full := ls_full s;
             ls_items := <[key := value]> (ls_items s) |}.

(** ** The browser *)

Record MouseEvent : Type := mkMouseEvent { clientX : R; clientY : R }.

(** [circle(r px at x px y px)] *)
Record Circle : Type := mkCircle { c_radius : R; c_x : R; c_y : R }.

(** The arguments of [Element.animate]. *)
Record Animation : Type := mkAnimation {
  clipPath : list Circle;
  duration : nat;
  easing : string;
  pseudoElement : string
}.

Record Cookie : Type := mkCookie {
  ck_value : string;
  ck_path : string;
  ck_max_age : N;
  ck_same_site : string
}.

(** The DOM operations the two providers perform, in the order performed. *)
Inductive DomOp : Type :=
| OpAppendStyle (css : nat)              (* document.head.appendChild(css) *)
| OpComputedStyle                        (* window.getComputedStyle(...) *)
| OpSetTimeout (css : nat) (delay : nat) (* setTimeout(() => removeChild(css), delay) *)
| OpRemoveStyle (css : nat)              (* document.head.removeChild(css) *)
| OpClassRemove (tokens : list string)   (* classList.remove(...tokens) *)
| OpClassAdd (token : string)            (* classList.add(token) *)
| OpSetAttribute (name value : string)   (* setAttribute(name, value) *)
| OpColorScheme (value : string)         (* style.colorScheme = value *)
| OpCookie (name : string) (c : Cookie)  (* document.cookie = ... *)
| OpStartViewTransition                  (* document.startViewTransition(cb) *)
| OpAnimate (a : Animation).             (* documentElement.animate(...) *)

(** Callbacks waiting for a later turn of the event loop. *)
Inductive Task : Type :=
| TaskRemoveChild (css : nat)
| TaskUpdateTheme (attribute newTheme : string)
| TaskReveal (x y endRadius : R).

(** [window] and [document] exist together (a browser) or are both missing
    (server rendering): the record below is the first case. *)
Record Browser : Type := mkBrowser {
  prefersDark : bool;          (* matchMedia("(prefers-color-scheme: dark)").matches *)
  localStorage : Storage;
  classList : list string;     (* documentElement.classList *)
  attributes : gmap string string; (* other attributes of documentElement *)
  colorScheme : option string; (* documentElement.style.colorScheme *)
  head : list nat;             (* style elements under document.head *)
  cookies : gmap string Cookie;
  hasViewTransition : bool;    (* document.startViewTransition is defined *)
  innerWidth : nat;
  innerHeight : nat;
  tasks : list Task;
  trace : list DomOp
}.

(** [None]: neither [window] nor [document] is defined. *)
Definition World : Type := option Browser.

Definition log (op : DomOp) (b : Browser) : Browser :=
  {| prefersDark := prefersDark b; localStorage := localStorage b;
     classList := classList b; attributes := attributes b;
     colorScheme := colorScheme b; head := head b; cookies := cookies b;
     hasViewTransition := hasViewTransition b;
     innerWidth := innerWidth b; innerHeight := innerHeight b;
     tasks := tasks b; trace := trace b ++ [op] |}.

Definition enqueue (t : Task) (b : Browser) : Browser :=
  {| prefersDark := prefersDark b; localStorage := localStorage b;
     classList := classList b; attributes := attributes b;
     colorScheme := colorScheme b; head := head b; cookies := cookies b;
     hasViewTransition := hasViewTransition b;
     innerWidth := innerWidth b; innerHeight := innerHeight b;
     tasks := tasks b ++ [t]; trace := trace b |}.

Definition with_storage (s : Storage) (b : Browser) : Browser :=
  {| prefersDark := prefersDark b; localStorage := s;
     classList := classList b; attributes := attributes b;
     colorScheme := colorScheme b; head := head b; cookies := cookies b;
     hasViewTransition := hasViewTransition b;
     innerWidth := innerWidth b; innerHeight := innerHeight b;
     tasks := tasks b; trace := trace b |}.

Definition with_prefersDark (m : bool) (b : Browser) : Browser :=
  {| prefersDark := m; localStorage := localStorage b;
     classList := classList b; attributes := attributes b;
     colorScheme := colorScheme b; head := head b; cookies := cookies b;
     hasViewTransition := hasViewTransition b;
     innerWidth := innerWidth b; innerHeight := innerHeight b;
     tasks := tasks b; trace := trace b |}.

Definition token_in (t : string) (l : list string) : bool :=
  bool_decide (t ∈ l).

(** [documentElement.classList.remove(...tokens)] *)
Definition classList_remove (tokens : list string) (b : Browser) : Browser :=
  log (OpClassRemove tokens)
  {| prefersDark := prefersDark b; localStorage := localStorage b;
     classList := filter (λ c, c ∉ tokens) (classList b);
     attributes := attributes b;
     colorScheme := colorScheme b; head := head b; cookies := cookies b;
     hasViewTransition := hasViewTransition b;
     innerWidth := innerWidth b; innerHeight := innerHeight b;
     tasks := tasks b; trace := trace b |}.

(** [documentElement.classList.add(token)]: a token already there is not
    added again. *)
Definition classList_add (token : string) (b : Browser) : Browser :=
  log (OpClassAdd token)
  {| prefersDark := prefersDark b; localStorage := localStorage b;
     classList := if token_in token (classList b) then classList b
                  else classList b ++ [token];
     attributes := attributes b;
     colorScheme := colorScheme b; head := head b; cookies := cookies b;
     hasViewTransition := hasViewTransition b;
     innerWidth := innerWidth b; innerHeight := innerHeight b;
     tasks := tasks b; trace := trace b |}.

(** [documentElement.setAttribute(name, value)], for a name other than
    [class] and [style]. *)
Definition setAttribute (name value : string) (b : Browser) : Browser :=
  log (OpSetAttribute name value)
  {| prefersDark := prefersDark b; localStorage := localStorage b;
     classList := classList b;
     attributes := <[name := value]> (attributes b);
     colorScheme := colorScheme b; head := head b; cookies := cookies b;
     hasViewTransition := hasViewTransition b;
     innerWidth := innerWidth b; innerHeight := innerHeight b;
     tasks := tasks b; trace := trace b |}.

(** [documentElement.style.colorScheme = value] *)
Definition setColorScheme (value : string) (b : Browser) : Browser :=
  log (OpColorScheme value)
  {| prefersDark := prefersDark b; localStorage := localStorage b;
     classList := classList b; attributes := attributes b;
     colorScheme := Some value; head := head b; cookies := cookies b;
     hasViewTransition := hasViewTransition b;
     innerWidth := innerWidth b; innerHeight := innerHeight b;
     tasks := tasks b; trace := trace b |}.

Definition task_node (t : Task) : list nat :=
  match t with TaskRemoveChild css => [css] | _ => [] end.

(** [document.createElement("style")] returns a new node: its identity differs
    from every node under [document.head] and from every node a pending
    callback still refers to. *)
Definition createElement (b : Browser) : nat :=
  S (list_max (head b ++ concat (map task_node (tasks b)))).

(** [document.head.appendChild(css)] *)
Definition appendChild (css : nat) (b : Browser) : Browser :=
  log (OpAppendStyle css)
  {| prefersDark := prefersDark b; localStorage := localStorage b;
     classList := classList b; attributes := attributes b;
     colorScheme := colorScheme b; head := head b ++ [css];
     cookies := cookies b;
     hasViewTransition := hasViewTransition b;
     innerWidth := innerWidth b; innerHeight := innerHeight b;
     tasks := tasks b; trace := trace b |}.

(** [document.head.removeChild(css)] *)
Definition removeChild (css : nat) (b : Browser) : Browser :=
  log (OpRemoveStyle css)
  {| prefersDark := prefersDark b; localStorage := localStorage b;
     classList := classList b; attributes := attributes b;
     colorScheme := colorScheme b;
     head := filter (λ n, n ≠ css) (head b);
     cookies := cookies b;
     hasViewTransition := hasViewTransition b;
     innerWidth := innerWidth b; innerHeight := innerHeight b;
     tasks := tasks b; trace := trace b |}.

(** [window.getComputedStyle(...)]: forces a style recomputation. *)
Definition getComputedStyle (b : Browser) : Browser := log OpComputedStyle b.

(** [setTimeout(() => document.head.removeChild(css), delay)] *)
Definition setTimeout_removeChild (css delay : nat) (b : Browser) : Browser :=
  log (OpSetTimeout css delay) (enqueue (TaskRemoveChild css) b).

(** [document.cookie = `${name}=${value};path=/;max-age=31536000;SameSite=Lax`] *)
Definition assignCookie (name : string) (c : Cookie) (b : Browser) : Browser :=
  log (OpCookie name c)
  {| prefersDark := prefersDark b; localStorage := localStorage b;
     classList := classList b; attributes := attributes b;
     colorScheme := colorScheme b; head := head b;
     cookies := <[name := c]> (cookies b);
     hasViewTransition := hasViewTransition b;
     innerWidth := innerWidth b; innerHeight := innerHeight b;
     tasks := tasks b; trace := trace b |}.

(** The inner function [updateTheme] of the second provider's [applyTheme]
    (lines 244-254); it also runs later, as the update callback of a view
    transition. *)
Definition updateTheme (attribute newTheme : string) (b : Browser) : Browser :=
  let b1 := classList_remove ["light"; "dark"] b in
  let b2 := if String.eqb attribute "class"
            then classList_add newTheme b1
            else setAttribute attribute newTheme b1 in
  setColorScheme newTheme b2.

(** The call of [animate] in the continuation of [transition.ready]
    (lines 287-303). *)
Definition revealAnimation (x y endRadius : R) : Animation :=
  {| clipPath := [ {| c_radius := 0%R; c_x := x; c_y := y |};
                   {| c_radius := endRadius; c_x := x; c_y := y |} ];
     duration := 500;
     easing := "ease-in-out";
     pseudoElement := "::view-transition-new(root)" |}.

Definition run_task (t : Task) (b : Browser) : Browser :=
  match t with
  | TaskRemoveChild css => removeChild css b
  | TaskUpdateTheme attribute newTheme => updateTheme attribute newTheme b
  | TaskReveal x y endRadius => log (OpAnimate (revealAnimation x y endRadius)) b
  end.

Definition clear_tasks (b : Browser) : Browser :=
  {| prefersDark := prefersDark b; localStorage := localStorage b;
     classList := classList b; attributes := attributes b;
     colorScheme := colorScheme b; head := head b; cookies := cookies b;
     hasViewTransition := hasViewTransition b;
     innerWidth := innerWidth b; innerHeight := innerHeight b;
     tasks := []; trace := trace b |}.

(** One later turn of the event loop: every pending callback runs, in the
    order registered. *)
Definition tick (b : Browser) : Browser :=
  foldl (λ acc t, run_task t acc) (clear_tasks b) (tasks b).

(** The root marker: what style sheets select on. *)
Definition marker (b : Browser) : list string * gmap string string * option string :=
  (classList b, attributes b, colorScheme b).

(** The operations that write the marker's value. *)
Definition is_marker_write (op : DomOp) : bool :=
  match op with
  | OpClassAdd _ | OpSetAttribute _ _ => true
  | _ => false
  end.


(** ** React context *)

(** [useContext(ThemeContext)] at a component whose enclosing providers
    hold [providers], innermost first; the context's default value is
    [undefined]. *)
Definition useContext {V : Type} (providers : list V) : option V :=
  match providers with
  | [] => None
  | v :: _ => Some v
  end.

(** ** The first provider (lines 1-174) *)

Module A.

Inductive Attribute : Type := AttrClass | AttrDataTheme.

Record Props : Type := mkProps {
  defaultTheme : Theme;
  storageKey : string;
  attribute : Attribute;
  disableTransitionOnChange : bool;
  forcedTheme : option Theme;
  enableCookieStorage : bool;
  cookieName : string
}.

(** The default values of the destructured props (lines 83-89). *)
Definition defaultProps : Props :=
  {| defaultTheme := Dark; storageKey := "theme"; attribute := AttrClass;
     disableTransitionOnChange := true; forcedTheme := None;
     enableCookieStorage := false; cookieName := "theme" |}.

(** The three [useState] cells. *)
Record State : Type := mkState {
  theme : Theme;
  systemTheme : option ResolvedTheme;
  resolvedTheme : ResolvedTheme
}.

(** What the provider hands to its consumers, without the setter. *)
Record ThemeContextType : Type := mkContext {
  ctx_theme : Theme;
  ctx_resolvedTheme : ResolvedTheme;
  ctx_systemTheme : option ResolvedTheme
}.

Definition getSystemTheme (w : World) : ResolvedTheme :=
  match w with
  | None => RDark
  | Some b => if prefersDark b then RDark else RLight
  end.

(** The test [stored === "light" || stored === "dark" || stored === "system"]. *)
Definition recognized (stored : string) : option Theme :=
  if String.eqb stored "light" then Some Light
  else if String.eqb stored "dark" then Some Dark
  else if String.eqb stored "system" then Some System
  else None.

Definition getStoredTheme (w : World) (key : string) (defaultTheme : Theme) : Theme :=
  match w with
  | None => defaultTheme
  | Some b =>
      match getItem (localStorage b) key with
      | Ok (Some stored) =>
          match recognized stored with
          | Some t => t
          | None => defaultTheme
          end
      | Ok None => defaultTheme
      | Throw _ => defaultTheme
      end
  end.

Definition setCookie (name value : string) (w : World) : World :=
  match w with
  | None => None
  | Some b =>
      Some (assignCookie name
              {| ck_value := value; ck_path := "/"; ck_max_age := 31536000%N;
                 ck_same_site := "Lax" |} b)
  end.

Definition applyTheme (theme : ResolvedTheme) (attribute : Attribute)
    (disableTransition : bool) (w : World) : World :=
  match w with
  | None => None
  | Some b =>
      let b1 :=
        if disableTransition then
          let css := createElement b in
          setTimeout_removeChild css 1 (getComputedStyle (appendChild css b))
        else b in
      Some match attribute with
           | AttrClass =>
               classList_add (resolved_str theme)
                 (classList_remove ["light"; "dark"] b1)
           | AttrDataTheme => setAttribute "data-theme" (resolved_str theme) b1
           end
  end.

(** [forcedTheme || x] *)
Definition forced_or (forced : option Theme) (x : Theme) : Theme :=
  match forced with Some f => f | None => x end.

(** [systemTheme || getSystemTheme()] *)
Definition system_or (systemTheme : option ResolvedTheme) (w : World) : ResolvedTheme :=
  match systemTheme with Some s => s | None => getSystemTheme w end.

(** [current === "system" ? ambient : current] *)
Definition resolve (current : Theme) (ambient : ResolvedTheme) : ResolvedTheme :=
  match current with
  | System => ambient
  | Light => RLight
  | Dark => RDark
  end.

(** The initializers of the three cells (lines 91-100). *)
Definition init (p : Props) (w : World) : State :=
  {| theme := forced_or (forcedTheme p) (getStoredTheme w (storageKey p) (defaultTheme p));
     systemTheme := Some (getSystemTheme w);
     resolvedTheme :=
       resolve (forced_or (forcedTheme p)
                  (getStoredTheme w (storageKey p) (defaultTheme p)))
               (getSystemTheme w) |}.

Definition cookie_mirror (p : Props) (resolved : ResolvedTheme) (w : World) : World :=
  if enableCookieStorage p then setCookie (cookieName p) (resolved_str resolved) w
  else w.

(** The listener [handleChange] of the media query (lines 105-113), called
    with [e.matches]. *)
Definition handleChange (p : Props) (matches : bool) (sw : State * World) : State * World :=
  let '(st, w) := sw in
  let newSystemTheme := if matches then RDark else RLight in
  match theme st with
  | System =>
      ({| theme := theme st; systemTheme := Some newSystemTheme;
          resolvedTheme := newSystemTheme |},
       cookie_mirror p newSystemTheme
         (applyTheme newSystemTheme (attribute p) (disableTransitionOnChange p) w))
  | _ =>
      ({| theme := theme st; systemTheme := Some newSystemTheme;
          resolvedTheme := resolvedTheme st |}, w)
  end.

(** The effect that runs once after the first render (lines 124-131). *)
Definition mountEffect (p : Props) (sw : State * World) : State * World :=
  let '(st, w) := sw in
  let current := forced_or (forcedTheme p) (theme st) in
  let resolved := resolve current (system_or (systemTheme st) w) in
  ({| theme := theme st; systemTheme := systemTheme st; resolvedTheme := resolved |},
   cookie_mirror p resolved (applyTheme resolved (attribute p) false w)).

(** [try { localStorage.setItem(key, value) } catch {}]: without a window the
    identifier [localStorage] itself throws, which is caught as well. *)
Definition try_setItem (key value : string) (w : World) : World :=
  match w with
  | None => None
  | Some b =>
      match setItem (localStorage b) key value with
      | Ok s => Some (with_storage s b)
      | Throw _ => Some b
      end
  end.

Definition setTheme (p : Props) (newTheme : Theme) (sw : State * World) : State * World :=
  let '(st, w) := sw in
  match forcedTheme p with
  | Some _ => (st, w)
  | None =>
      let resolved := resolve newTheme (system_or (systemTheme st) w) in
      ({| theme := newTheme; systemTheme := systemTheme st; resolvedTheme := resolved |},
       cookie_mirror p resolved
         (try_setItem (storageKey p) (theme_str newTheme)
            (applyTheme resolved (attribute p) (disableTransitionOnChange p) w)))
  end.

(** The [value] of the context provider (lines 159-164). *)
Definition contextValue (p : Props) (st : State) : ThemeContextType :=
  {| ctx_theme := forced_or (forcedTheme p) (theme st);
     ctx_resolvedTheme := resolvedTheme st;
     ctx_systemTheme := systemTheme st |}.

(** [if (!context) throw ...]: a context value is an object, hence truthy. *)
Definition useTheme {V : Type} (providers : list V) : Result V :=
  match useContext providers with
  | None => Throw (JsError "useTheme must be used within ThemeProvider")
  | Some context => Ok context
  end.

(** What can happen to a mounted provider. *)
Inductive Event : Type :=
| EvMount                          (* the mount effect runs, on the cells as
                                      they are: those of the first render
                                      when it comes before every setter call
                                      and delivered ambient change *)
| EvSetTheme (newTheme : Theme)    (* a consumer calls the setter *)
| EvMediaChange (matches : bool)   (* the media query changes, listener attached *)
| EvMediaSilent (matches : bool)   (* it changes while no listener is attached *)
| EvTick.                          (* pending callbacks run *)

Definition set_media (matches : bool) (w : World) : World :=
  with_prefersDark matches <$> w.

Definition step (p : Props) (e : Event) (sw : State * World) : State * World :=
  match e with
  | EvMount => mountEffect p sw
  | EvSetTheme newTheme => setTheme p newTheme sw
  | EvMediaChange matches =>
      match sw.2 with
      | None => sw
      | Some _ => handleChange p matches (sw.1, set_media matches sw.2)
      end
  | EvMediaSilent matches => (sw.1, set_media matches sw.2)
  | EvTick => (sw.1, tick <$> sw.2)
  end.

(** The configuration after the first render and a sequence of events. *)
Definition run (p : Props) (w0 : World) (events : list Event) : State * World :=
  foldl (λ sw e, step p e sw) (init p w0, w0) events.

End A.

(** ** The second provider (lines 175-378) *)

Module B.

Record Props : Type := mkProps {
  defaultTheme : Theme;
  storageKey : string;
  attribute : string;
  enableSystem : bool;
  disableTransitionOnChange : bool;
  enableViewTransitions : bool
}.

(** The default values of the destructured props (lines 203-208). *)
Definition defaultProps : Props :=
  {| defaultTheme := System; storageKey := "theme-preference";
     attribute := "class"; enableSystem := true;
     disableTransitionOnChange := false; enableViewTransitions := true |}.

(** The three [useState] cells.  The cast [as Theme] of what storage returns
    checks nothing, so at run time [theme], and [resolvedTheme] after it,
    hold whatever string was stored. *)
Record State : Type := mkState {
  theme : string;
  resolvedTheme : string;
  mounted : bool
}.

Record ThemeContextType : Type := mkContext {
  ctx_theme : string;
  ctx_resolvedTheme : string;
  ctx_themes : list Theme
}.

Definition getSystemTheme (w : World) : ResolvedTheme :=
  match w with
  | None => RLight
  | Some b => if prefersDark b then RDark else RLight
  end.

Definition resolveTheme (w : World) (currentTheme : string) : string :=
  if String.eqb currentTheme "system" then resolved_str (getSystemTheme w)
  else currentTheme.

(** The initializer of the [theme] cell (lines 218-223):
    [localStorage.getItem(storageKey) || defaultTheme] in a browser, where
    [null] and the empty string are falsy; no [try] surrounds the read. *)
Definition initTheme (p : Props) (w : World) : Result string :=
  match w with
  | None => Ok (theme_str (defaultTheme p))
  | Some b =>
      match getItem (localStorage b) (storageKey p) with
      | Throw e => Throw e
      | Ok None => Ok (theme_str (defaultTheme p))
      | Ok (Some stored) =>
          Ok (if String.eqb stored "" then theme_str (defaultTheme p) else stored)
      end
  end.

Definition init (p : Props) (w : World) : Result State :=
  match initTheme p w with
  | Throw e => Throw e
  | Ok t => Ok {| theme := t; resolvedTheme := "light"; mounted := false |}
  end.

(** [Math.hypot], over the real numbers. *)
Definition hypot (a b : R) : R := sqrt (a * a + b * b).

(** [endRadius] of lines 278-281. *)
Definition endRadius (x y : R) (width height : nat) : R :=
  hypot (Rmax x (INR width - x)) (Rmax y (INR height - y)).

Definition applyTheme (p : Props) (newTheme : string)
    (clickEvent : option MouseEvent) (w : World) : Result World :=
  match w with
  | None => Throw (ReferenceError "document")
  | Some b =>
      if negb (enableViewTransitions p) || negb (hasViewTransition b) then
        let b1 :=
          if disableTransitionOnChange p then
            let css := createElement b in
            setTimeout_removeChild css 1 (getComputedStyle (appendChild css b))
          else b in
        Ok (Some (updateTheme (attribute p) newTheme b1))
      else
        match clickEvent with
        | Some e =>
            let x := clientX e in
            let y := clientY e in
            let r := endRadius x y (innerWidth b) (innerHeight b) in
            Ok (Some (enqueue (TaskReveal x y r)
                        (enqueue (TaskUpdateTheme (attribute p) newTheme)
                           (log OpStartViewTransition b))))
        | None =>
            Ok (Some (enqueue (TaskUpdateTheme (attribute p) newTheme)
                        (log OpStartViewTransition b)))
        end
  end.

(** The effect that runs once after the first render (lines 311-316). *)
Definition mountEffect (p : Props) (sw : State * World) : Result (State * World) :=
  let '(st, w) := sw in
  let resolved := resolveTheme w (theme st) in
  match applyTheme p resolved None w with
  | Throw e => Throw e
  | Ok w' => Ok ({| theme := theme st; resolvedTheme := resolved; mounted := true |}, w')
  end.

(** The listener of the media query (lines 323-329). *)
Definition handleChange (p : Props) (sw : State * World) : Result (State * World) :=
  let '(st, w) := sw in
  if String.eqb (theme st) "system" then
    let newResolved := resolved_str (getSystemTheme w) in
    match applyTheme p newResolved None w with
    | Throw e => Throw e
    | Ok w' =>
        Ok ({| theme := theme st; resolvedTheme := newResolved;
               mounted := mounted st |}, w')
    end
  else Ok (st, w).

(** [try { localStorage.setItem(key, value) } catch (e) {}] *)
Definition try_setItem (key value : string) (w : World) : World :=
  match w with
  | None => None
  | Some b =>
      match setItem (localStorage b) key value with
      | Ok s => Some (with_storage s b)
      | Throw _ => Some b
      end
  end.

Definition setTheme (p : Props) (newTheme : Theme) (clickEvent : option MouseEvent)
    (sw : State * World) : Result (State * World) :=
  let '(st, w) := sw in
  let w1 := try_setItem (storageKey p) (theme_str newTheme) w in
  let resolved := resolveTheme w1 (theme_str newTheme) in
  match applyTheme p resolved clickEvent w1 with
  | Throw e => Throw e
  | Ok w' =>
      Ok ({| theme := theme_str newTheme; resolvedTheme := resolved;
             mounted := mounted st |}, w')
  end.

Definition themes (p : Props) : list Theme :=
  if enableSystem p then [Light; Dark; System] else [Light; Dark].

(** The [value] of the context provider (lines 362-367), without the setter. *)
Definition contextValue (p : Props) (st : State) : ThemeContextType :=
  {| ctx_theme := theme st; ctx_resolvedTheme := resolvedTheme st;
     ctx_themes := themes p |}.

(** [if (context === undefined) throw ...] *)
Definition useTheme {V : Type} (providers : list V) : Result V :=
  match useContext providers with
  | None => Throw (JsError "useTheme debe usarse dentro de ThemeProvider")
  | Some context => Ok context
  end.

End B.


(** * Definitions used to state the properties *)

(** ** The resolution as the specification words it *)

(** [Resolves a forced p r]: with ambient value [a], forced override [forced]
    and declared preference [p], the resolved value is [r]. *)
Inductive Resolves (a : ResolvedTheme) : option Theme → Theme → ResolvedTheme → Prop :=
| resolves_binary p r :
    theme_of_resolved r = p → Resolves a None p r
| resolves_system :
    Resolves a None System a
| resolves_forced f p r :
    Resolves a None f r → Resolves a (Some f) p r.

(** ** Invariant of the first provider *)

(** The cells agree with each other: the ambient value has been read, a
    forced theme is the declared one, and the resolved value is the
    resolution of the declared one. *)
Definition A_consistent (p : A.Props) (st : A.State) : Prop :=
  ∃ a, A.systemTheme st = Some a
       ∧ A.forced_or (A.forcedTheme p) (A.theme st) = A.theme st
       ∧ A.resolvedTheme st = A.resolve (A.theme st) a.

(** The media listener is attached by the effect of lines 318-346, which
    returns at once unless [enableSystem && mounted]. *)
Definition B_listening (p : B.Props) (st : B.State) : bool :=
  B.enableSystem p && B.mounted st.

(** ** Concrete browsers and props *)

Definition emptyStorage : Storage :=
  {| ls_denied := false; ls_full := false; ls_items := ∅ |}.

(** A freshly loaded page: light ambient preference, nothing stored, no
    marker, no view transitions. *)
Definition freshBrowser : Browser :=
  {| prefersDark := false; localStorage := emptyStorage;
     classList := []; attributes := ∅; colorScheme := None; head := [];
     cookies := ∅; hasViewTransition := false;
     innerWidth := 1280; innerHeight := 720; tasks := []; trace := [] |}.

Definition darkBrowser : Browser := with_prefersDark true freshBrowser.

Definition storedDarkBrowser : Browser :=
  with_storage
    {| ls_denied := false; ls_full := false;
       ls_items := {[ "theme-preference" := "dark" ]} |}
    darkBrowser.

Definition clickableBrowser : Browser :=
  {| prefersDark := false; localStorage := emptyStorage;
     classList := ["light"]; attributes := ∅; colorScheme := Some "light";
     head := []; cookies := ∅; hasViewTransition := true;
     innerWidth := 1280; innerHeight := 720; tasks := []; trace := [] |}.

Definition forcedProps (f : Theme) : A.Props :=
  {| A.defaultTheme := Dark; A.storageKey := "theme"; A.attribute := A.AttrClass;
     A.disableTransitionOnChange := true; A.forcedTheme := Some f;
     A.enableCookieStorage := false; A.cookieName := "theme" |}.


(** ** The effect of one setter call, field by field *)

(** [classList.remove("light", "dark")] followed by [classList.add(t)], on
    the token list. *)
Definition swap_token (t : string) (cl : list string) : list string :=
  let cl1 := filter (λ c, c ∉ ["light"; "dark"]) cl in
  if token_in t cl1 then cl1 else cl1 ++ [t].

Module ASetter.
Import A.


(** What one guarded [setItem] does to the storage area. *)
Definition saved (key value : string) (s : Storage) : Storage :=
  match setItem s key value with Ok s' => s' | Throw _ => s end.

(** What the cookie mirror does to the cookie jar. *)
Definition mirrored (p : Props) (r : ResolvedTheme) (c : gmap string Cookie) :
    gmap string Cookie :=
  if enableCookieStorage p then
    <[cookieName p := {| ck_value := resolved_str r; ck_path := "/";
                         ck_max_age := 31536000%N; ck_same_site := "Lax" |}]> c
  else c.

End ASetter.

Module BSetter.
Import B.

(** What [updateTheme] does to the marker. *)
Definition update_marker (attribute newTheme : string)
    (m : list string * gmap string string * option string) :
    list string * gmap string string * option string :=
  if String.eqb attribute "class"
  then (swap_token newTheme m.1.1, m.1.2, Some newTheme)
  else (filter (λ c, c ∉ ["light"; "dark"]) m.1.1,
        <[attribute := newTheme]> m.1.2, Some newTheme).

(** What a pending callback does to the marker, and how many marker writes
    it performs. *)
Definition task_marker (t : Task)
    (m : list string * gmap string string * option string) :=
  match t with
  | TaskUpdateTheme attribute newTheme => update_marker attribute newTheme m
  | _ => m
  end.


Definition settled_marker (m : list string * gmap string string * option string)
    (ts : list Task) :=
  foldl (λ acc t, task_marker t acc) m ts.


(** The test of line 256. *)
Definition instant (p : Props) (b : Browser) : bool :=
  negb (enableViewTransitions p) || negb (hasViewTransition b).

End BSetter.

(** ** Suppressing transitions during the swap *)



(** ** The circular reveal *)

(** The distance from [(x, y)] to [(cx, cy)]. *)
Definition distance (x y cx cy : R) : R :=
  sqrt ((x - cx) * (x - cx) + (y - cy) * (y - cy))%R.


(** ** What the marker shows, and what is pending *)

Definition opposite (r : ResolvedTheme) : ResolvedTheme :=
  match r with RLight => RDark | RDark => RLight end.

(** [marker_shows attribute r b]: the root element of [b] carries the marker
    of [r] and not the marker of the other value. *)
Definition marker_shows (attribute : A.Attribute) (r : ResolvedTheme)
    (b : Browser) : Prop :=
  match attribute with
  | A.AttrClass =>
      resolved_str r ∈ classList b ∧ resolved_str (opposite r) ∉ classList b
  | A.AttrDataTheme => attributes b !! "data-theme" = Some (resolved_str r)
  end.


(** Every pending callback is the removal of a style element. *)
Definition only_removals (ts : list Task) : bool :=
  forallb (λ t, match t with TaskRemoveChild _ => true | _ => false end) ts.

(** The style elements the pending callbacks will remove. *)
Definition pending_nodes (ts : list Task) : list nat :=
  concat (map task_node ts).

(** The argument of the last setter call among [events], or [initial]. *)
Definition last_set (initial : Theme) (events : list A.Event) : Theme :=
  foldl (λ t e, match e with A.EvSetTheme x => x | _ => t end) initial events.

Definition is_animate (op : DomOp) : bool :=
  match op with OpAnimate _ => true | _ => false end.

(** The number of calls of [animate] in a log. *)
Definition animations (ops : list DomOp) : nat :=
  length (filter (λ op, is_animate op = true) ops).

Definition task_animations (t : Task) : nat :=
  match t with TaskReveal _ _ _ => 1 | _ => 0 end.

(** [dom_same b b']: the root marker, the style elements and the pending
    callbacks of [b'] are those of [b]. *)
Definition dom_same (b b' : Browser) : Prop :=
  classList b' = classList b ∧ attributes b' = attributes b
  ∧ colorScheme b' = colorScheme b
  ∧ head b' = head b ∧ tasks b' = tasks b.

(** [wrote_marker p r dt b b']: from [b] to [b'] the first provider applied
    the resolved value [r] (with the style rule installed when [dt] holds) and
    mirrored it to the cookie when the mirror is enabled. *)
Definition wrote_marker (p : A.Props) (r : ResolvedTheme) (dt : bool)
    (b b' : Browser) : Prop :=
  classList b'
  = match A.attribute p with
    | A.AttrClass => swap_token (resolved_str r) (classList b)
    | A.AttrDataTheme => classList b
    end
  ∧ attributes b'
    = match A.attribute p with
      | A.AttrClass => attributes b
      | A.AttrDataTheme => <["data-theme" := resolved_str r]> (attributes b)
      end
  ∧ colorScheme b' = colorScheme b
  ∧ head b' = (if dt then head b ++ [createElement b] else head b)%list
  ∧ tasks b'
    = (if dt then tasks b ++ [TaskRemoveChild (createElement b)] else tasks b)%list
  ∧ cookies b' = ASetter.mirrored p r (cookies b).


(** A page whose storage is full and holds ["light"] under ["theme"]. *)
Definition fullStorageBrowser : Browser :=
  with_storage
    {| ls_denied := false; ls_full := true;
       ls_items := {[ "theme" := "light" ]} |}
    freshBrowser.

(** A page whose storage denies every access. *)
Definition deniedStorageBrowser : Browser :=
  with_storage {| ls_denied := true; ls_full := false; ls_items := ∅ |}
    freshBrowser.

(** ** What the DOM and the cookie grammar accept *)

Fixpoint string_forall (f : Ascii.ascii → bool) (s : string) : bool :=
  match s with
  | EmptyString => true
  | String c rest => f c && string_forall f rest
  end.

(** ASCII whitespace: tab, line feed, form feed, carriage return, space. *)
Definition ascii_whitespace (c : Ascii.ascii) : bool :=
  let n := Ascii.N_of_ascii c in
  N.eqb n 9 || N.eqb n 10 || N.eqb n 12 || N.eqb n 13 || N.eqb n 32.

(** The tokens [classList.add] accepts: not empty, no ASCII whitespace
    (it throws a [SyntaxError] or an [InvalidCharacterError] otherwise). *)
Definition valid_token (token : string) : bool :=
  negb (String.eqb token "")
  && string_forall (λ c, negb (ascii_whitespace c)) token.

Definition lower_letter (c : Ascii.ascii) : bool :=
  let n := Ascii.N_of_ascii c in N.leb 97 n && N.leb n 122.

Definition plain_name_char (c : Ascii.ascii) : bool :=
  let n := Ascii.N_of_ascii c in
  lower_letter c || (N.leb 48 n && N.leb n 57) || N.eqb n 45.

(** Attribute names for which [setAttribute] is a plain write of that
    attribute: a lower-case letter followed by lower-case letters, digits
    and hyphens (so that the name is valid and lower-casing leaves it as it
    is), other than [class] and [style], which the provider writes through
    [classList] and [style]. *)
Definition plain_attribute (name : string) : bool :=
  match name with
  | EmptyString => false
  | String c _ => lower_letter c
  end
  && string_forall plain_name_char name
  && negb (String.eqb name "class") && negb (String.eqb name "style").

(** The attribute prop of the second provider is [class] or a plain
    attribute name. *)
Definition attribute_ok (attribute : string) : bool :=
  String.eqb attribute "class" || plain_attribute attribute.

(** The DOM accepts the marker write of [updateTheme]: in class mode the
    theme is a valid token, otherwise the attribute name is plain. *)
Definition dom_accepts (attribute token : string) : bool :=
  if String.eqb attribute "class" then valid_token token
  else plain_attribute attribute.



(** ** Runs in which the mount effect reads the cells of the first render *)

(** The mount effect has no dependencies: it reads [theme] and [systemTheme]
    as they were at the first render.  [A.step] runs it on the current cells,
    which are those of the first render as long as no setter call and no
    delivered ambient change came before it. *)
Definition changes_cells (e : A.Event) : bool :=
  match e with
  | A.EvSetTheme _ | A.EvMediaChange _ => true
  | _ => false
  end.

Definition is_mount (e : A.Event) : bool :=
  match e with A.EvMount => true | _ => false end.

Fixpoint mount_reads_first_render (events : list A.Event) : bool :=
  match events with
  | [] => true
  | e :: rest =>
      if changes_cells e then forallb (λ e', negb (is_mount e')) rest
      else mount_reads_first_render rest
  end.

(** * Properties *)

Lemma Resolves_functional a forced p r1 r2 :
  Resolves a forced p r1 → Resolves a forced p r2 → r1 = r2.
Proof.
  intros H1. revert r2.
  induction H1 as [p r Hr | | f p r H IH]; intros r2 H2.
  - inversion H2 as [p' r' Hr' | | ]; subst.
    + destruct r, r2; simpl in *; congruence.
    + destruct r; discriminate.
  - inversion H2 as [p' r' Hr' | | ]; subst; [ | reflexivity].
    destruct r2; discriminate.
  - inversion H2; subst. by apply IH.
Qed.

Module AFacts.
Import A.

Lemma resolve_Resolves current a : Resolves a None current (resolve current a).
Proof.
  destruct current; simpl.
  - by apply resolves_binary.
  - by apply resolves_binary.
  - apply resolves_system.
Qed.

Lemma resolve_forced_Resolves forced p a :
  Resolves a forced p (resolve (forced_or forced p) a).
Proof.
  destruct forced as [f|]; simpl.
  - apply resolves_forced, resolve_Resolves.
  - apply resolve_Resolves.
Qed.

Lemma forced_or_idem forced x :
  forced_or forced (forced_or forced x) = forced_or forced x.
Proof. by destruct forced. Qed.

Lemma init_consistent p w : A_consistent p (init p w).
Proof.
  exists (getSystemTheme w). simpl.
  split; [reflexivity|]. split; [apply forced_or_idem | reflexivity].
Qed.

Lemma step_consistent p e sw : A_consistent p sw.1 → A_consistent p (step p e sw).1.
Proof.
  destruct sw as [st w]. intros (a & Ha & Hf & Hr). simpl in *.
  destruct e as [ | newTheme | m | m | ]; simpl.
  - exists a. simpl. rewrite Ha, Hf. by simpl.
  - unfold setTheme. destruct (forcedTheme p) as [f|] eqn:Hp.
    + exists a. by rewrite Hp.
    + exists a. simpl. by rewrite Ha, Hp.
  - destruct w as [b|]; simpl.
    + destruct (theme st) eqn:Ht; simpl;
        exists (if m then RDark else RLight); simpl; rewrite ?Ht;
        repeat split; try done; by rewrite Hr.
    + by exists a.
  - by exists a.
  - by exists a.
Qed.

Lemma run_snoc p w0 events e :
  run p w0 (events ++ [e]) = step p e (run p w0 events).
Proof. unfold run. by rewrite foldl_app. Qed.

Lemma run_consistent p w0 events : A_consistent p (run p w0 events).1.
Proof.
  induction events as [|e events IH] using rev_ind.
  - apply init_consistent.
  - rewrite run_snoc. by apply step_consistent.
Qed.

End AFacts.

(** C1.  Resolution.  In the first provider, in a browser, after the first
    render and any sequence of events in which the mount effect comes before
    every setter call and every delivered ambient change (so that it reads
    the cells of the first render), the resolved value is the resolution of
    the declared preference against the ambient value the provider tracks:
    the preference itself when it is light or dark, the ambient value when it
    is system, and the resolution of the forced theme when one is configured,
    whatever the declared preference.  The first render resolves the loaded
    preference that way, with or without a window.  A call of the setter in
    a browser with no forced theme resolves its argument the same way.  In
    the second provider [resolveTheme] is this function of its argument and
    of the ambient value. *)
Theorem resolution_is_the_pure_function :
  (∀ (p : A.Props) (b0 : Browser) (events : list A.Event),
     mount_reads_first_render events = true →
     let st := (A.run p (Some b0) events).1 in
     let w := (A.run p (Some b0) events).2 in
     Resolves (A.system_or (A.systemTheme st) w) (A.forcedTheme p)
       (A.theme st) (A.resolvedTheme st))
  ∧ (∀ (p : A.Props) (w : World),
       Resolves (A.getSystemTheme w) (A.forcedTheme p)
         (A.getStoredTheme w (A.storageKey p) (A.defaultTheme p))
         (A.resolvedTheme (A.init p w)))
  ∧ (∀ (p : A.Props) (x : Theme) (st : A.State) (b : Browser),
       match A.forcedTheme p with
       | None =>
           Resolves (A.system_or (A.systemTheme st) (Some b)) None x
             (A.resolvedTheme (A.setTheme p x (st, Some b)).1)
       | Some _ => A.setTheme p x (st, Some b) = (st, Some b)
       end)
  ∧ (∀ (w : World) (x : Theme),
       ∃ r, B.resolveTheme w (theme_str x) = resolved_str r
            ∧ Resolves (B.getSystemTheme w) None x r).
Proof.
  split; [|split; [|split]].
  - intros p b0 events _ st w.
    destruct (AFacts.run_consistent p (Some b0) events) as (a & Ha & Hf & Hr).
    fold st in Ha, Hf, Hr. rewrite Ha, Hr. simpl.
    pose proof (AFacts.resolve_forced_Resolves (A.forcedTheme p) (A.theme st) a) as H.
    by rewrite Hf in H.
  - intros p w. simpl. apply AFacts.resolve_forced_Resolves.
  - intros p x st b. unfold A.setTheme.
    destruct (A.forcedTheme p); [reflexivity|]. simpl.
    apply AFacts.resolve_Resolves.
  - intros w x. unfold B.resolveTheme.
    destruct x; simpl.
    + exists RLight. split; [reflexivity | by apply resolves_binary].
    + exists RDark. split; [reflexivity | by apply resolves_binary].
    + exists (B.getSystemTheme w). split; [reflexivity | apply resolves_system].
Qed.

Lemma resolution_is_the_pure_function_witness :
  let events := [A.EvMount; A.EvSetTheme System; A.EvMediaChange true] in
  let sw := A.run A.defaultProps (Some freshBrowser) events in
  mount_reads_first_render events = true
  ∧ Resolves (A.system_or (A.systemTheme sw.1) sw.2) None
      (A.theme sw.1) (A.resolvedTheme sw.1)
  ∧ A.resolvedTheme sw.1 = RDark.
Proof.
  split; [reflexivity|]. split; [|reflexivity].
  exact (proj1 resolution_is_the_pure_function A.defaultProps freshBrowser
           [A.EvMount; A.EvSetTheme System; A.EvMediaChange true] eq_refl).
Defined.

(** ** The ambient read without a window *)

Lemma B_getSystemTheme_no_window : B.getSystemTheme None = RLight.
Proof. reflexivity. Qed.

Lemma getSystemTheme_browser b :
  A.getSystemTheme (Some b) = B.getSystemTheme (Some b).
Proof. reflexivity. Qed.

(** C2.  Without a window the second provider's [getSystemTheme] returns
    light, as stated, but the first provider's returns dark. *)
Theorem A_getSystemTheme_no_window_is_dark :
  A.getSystemTheme None = RDark ∧ A.getSystemTheme None ≠ B.getSystemTheme None.
Proof. split; [reflexivity | discriminate]. Qed.

(** ** The preference store *)

Section Store.
Variable b : Browser.
Variable key : string.
Hypothesis writable :
  ls_denied (localStorage b) = false ∧ ls_full (localStorage b) = false.

Lemma try_setItem_stores value :
  ∃ b', A.try_setItem key value (Some b) = Some b'
          ∧ ls_denied (localStorage b') = false
          ∧ ls_items (localStorage b') !! key = Some value.
Proof using writable.
  destruct writable as [Hd Hf].
  unfold A.try_setItem, setItem. rewrite Hd, Hf. simpl.
  eexists. split; [reflexivity|]. simpl. split; [done|].
  apply lookup_insert_eq.
Qed.

(** In the first provider a saved theme is read back. *)
Lemma A_save_load (t defaultTheme : Theme) :
  A.getStoredTheme (A.try_setItem key (theme_str t) (Some b)) key defaultTheme = t.
Proof using writable.
  destruct (try_setItem_stores (theme_str t)) as (b' & -> & Hd & Hv).
  unfold A.getStoredTheme, getItem. rewrite Hd, Hv. by destruct t.
Qed.

(** In the first provider a saved value outside the enumeration is
    dropped for the default. *)
Lemma A_save_load_unrecognized (value : string) (defaultTheme : Theme) :
  A.recognized value = None →
  A.getStoredTheme (A.try_setItem key value (Some b)) key defaultTheme
  = defaultTheme.
Proof using writable.
  intros Hv.
  destruct (try_setItem_stores value) as (b' & -> & Hd & Hl).
  unfold A.getStoredTheme, getItem. by rewrite Hd, Hl, Hv.
Qed.

(** In the second provider a saved theme is read back as well. *)
Lemma B_save_load (p : B.Props) (t : Theme) :
  B.storageKey p = key →
  B.initTheme p (B.try_setItem key (theme_str t) (Some b)) = Ok (theme_str t).
Proof using writable.
  intros Hk.
  destruct (try_setItem_stores (theme_str t)) as (b' & Hb' & Hd & Hv).
  change (B.try_setItem key (theme_str t) (Some b))
      with (A.try_setItem key (theme_str t) (Some b)).
  rewrite Hb'. unfold B.initTheme, getItem. rewrite Hk, Hd, Hv.
  by destruct t.
Qed.

End Store.

Lemma purple_unrecognized : A.recognized "purple" = None.
Proof. reflexivity. Qed.

(** C3.  The second provider does not discard an unrecognized stored value:
    after ["purple"] is saved under its key, a fresh load with default
    [system] returns ["purple"], which is not the default. *)
Theorem B_load_keeps_unrecognized_value :
  B.initTheme B.defaultProps
    (B.try_setItem (B.storageKey B.defaultProps) "purple" (Some freshBrowser))
  = Ok "purple"
  ∧ "purple" ≠ theme_str (B.defaultTheme B.defaultProps).
Proof. split; [reflexivity | discriminate]. Qed.

(** ** Without a render surface *)

Lemma A_applyTheme_no_document theme attribute disableTransition :
  A.applyTheme theme attribute disableTransition None = None.
Proof. reflexivity. Qed.

Lemma A_setCookie_no_document name value : A.setCookie name value None = None.
Proof. reflexivity. Qed.

Lemma A_setTheme_no_document p newTheme st :
  (A.setTheme p newTheme (st, None)).2 = None.
Proof.
  unfold A.setTheme. destruct (A.forcedTheme p); [reflexivity|].
  simpl. unfold A.cookie_mirror. by destruct (A.enableCookieStorage p).
Qed.

(** C6.  Without a document the second provider's [applyTheme] raises a
    [ReferenceError], and so do its setter and its mount effect, which call
    it; the first provider's [applyTheme] and [setCookie] return without
    doing anything. *)
Theorem B_applyTheme_no_document_throws :
  (∀ p newTheme clickEvent,
     B.applyTheme p newTheme clickEvent None = Throw (ReferenceError "document"))
  ∧ (∀ p newTheme clickEvent st,
       B.setTheme p newTheme clickEvent (st, None) = Throw (ReferenceError "document"))
  ∧ (∀ p st, B.mountEffect p (st, None) = Throw (ReferenceError "document"))
  ∧ (∀ theme attribute disableTransition,
       A.applyTheme theme attribute disableTransition None = None)
  ∧ (∀ name value, A.setCookie name value None = None).
Proof. repeat split. Qed.

(** ** Reading the context *)

(** C9.  With no provider above the caller [useTheme] throws, in both
    providers; below a provider it returns that provider's value. *)
Theorem useTheme_outside_provider_throws :
  ∀ (V : Type),
    A.useTheme (@nil V) = Throw (JsError "useTheme must be used within ThemeProvider")
    ∧ B.useTheme (@nil V) = Throw (JsError "useTheme debe usarse dentro de ThemeProvider")
    ∧ (∀ (value : V) (outer : list V),
         A.useTheme (value :: outer) = Ok value
         ∧ B.useTheme (value :: outer) = Ok value).
Proof. intros V. repeat split. Qed.

(** ** The second provider before its mount effect *)

Lemma B_init_total p w :
  match w with Some b => ls_denied (localStorage b) = false | None => True end →
  ∃ st, B.init p w = Ok st.
Proof.
  intros Hw. unfold B.init, B.initTheme, getItem.
  destruct w as [b|]; [|by eexists].
  rewrite Hw. destruct (ls_items (localStorage b) !! B.storageKey p); by eexists.
Qed.

(** C10.  Every state the second provider constructs exposes
    [resolvedTheme = "light"], is not mounted and has no media listener,
    whatever is stored, whatever the default and the ambient value are.  In a
    browser, when the DOM accepts the marker write (in class mode the
    resolution of the declared theme is a token [classList.add] accepts, in
    attribute mode the attribute name is plain), the mount effect returns
    and replaces it by the resolution of the declared theme, which is what
    the provider exposes to its consumers from then on, together with the
    declared theme. *)
Theorem B_resolvedTheme_light_until_mount (p : B.Props) (w : World) (st : B.State) :
  B.init p w = Ok st →
  B.ctx_resolvedTheme (B.contextValue p st) = "light"
  ∧ B.mounted st = false
  ∧ B_listening p st = false
  ∧ (∀ b, w = Some b →
       dom_accepts (B.attribute p) (B.resolveTheme w (B.theme st)) = true →
       ∃ st' b',
         B.mountEffect p (st, w) = Ok (st', Some b')
         ∧ st' = {| B.theme := B.theme st;
                    B.resolvedTheme := B.resolveTheme w (B.theme st);
                    B.mounted := true |}
         ∧ B.contextValue p st'
           = {| B.ctx_theme := B.theme st;
                B.ctx_resolvedTheme := B.resolveTheme w (B.theme st);
                B.ctx_themes := B.themes p |}).
Proof.
  unfold B.init. destruct (B.initTheme p w) as [t|e]; [|discriminate].
  intros [= <-]. unfold B_listening. simpl.
  repeat split; [by rewrite andb_false_r|].
  intros b -> _. unfold B.applyTheme.
  destruct (negb _ || negb _); eexists _, _; by repeat split.
Qed.

Lemma B_resolvedTheme_light_until_mount_witness :
  let st := {| B.theme := "dark"; B.resolvedTheme := "light"; B.mounted := false |} in
  B.init B.defaultProps (Some storedDarkBrowser) = Ok st
  ∧ B.ctx_resolvedTheme (B.contextValue B.defaultProps st) = "light"
  ∧ dom_accepts (B.attribute B.defaultProps)
      (B.resolveTheme (Some storedDarkBrowser) (B.theme st)) = true
  ∧ ∃ st' b',
      B.mountEffect B.defaultProps (st, Some storedDarkBrowser) = Ok (st', Some b')
      ∧ B.ctx_resolvedTheme (B.contextValue B.defaultProps st') = "dark".
Proof.
  intros st.
  destruct (B_resolvedTheme_light_until_mount B.defaultProps
              (Some storedDarkBrowser) st eq_refl) as (H1 & _ & _ & H4).
  split; [reflexivity|]. split; [exact H1|]. split; [reflexivity|].
  destruct (H4 storedDarkBrowser eq_refl eq_refl) as (st' & b' & E & _ & Hc).
  exists st', b'. split; [exact E|]. by rewrite Hc.
Defined.

(** ** A forced theme in the first provider *)

(** C5, as stated, fails for the forced theme [system]: in a browser whose
    ambient preference is dark the resolved value is dark, which is not the
    override. *)
Lemma forced_system_resolves_to_ambient :
  A.resolvedTheme (A.init (forcedProps System) (Some darkBrowser)) = RDark
  ∧ theme_of_resolved (A.resolvedTheme (A.init (forcedProps System) (Some darkBrowser)))
    ≠ System.
Proof. split; [reflexivity | discriminate]. Qed.

(** C5, amended.  With a forced theme [f], after the first render and any
    sequence of events, a call of the setter changes neither the cells
    (declared and resolved value) nor the browser (storage, cookie, DOM); the
    theme exposed to consumers is [f]; the resolved value is [f] when [f] is
    light or dark and the tracked ambient value when [f] is system. *)
Theorem forced_theme_locks_the_setter
    (p : A.Props) (f : Theme) (w0 : World) (events : list A.Event) (v : Theme) :
  A.forcedTheme p = Some f →
  let sw := A.run p w0 events in
  A.setTheme p v sw = sw
  ∧ A.ctx_theme (A.contextValue p sw.1) = f
  ∧ match f with
    | System => A.resolvedTheme sw.1 = A.system_or (A.systemTheme sw.1) sw.2
    | _ => theme_of_resolved (A.resolvedTheme sw.1) = f
    end.
Proof.
  intros Hp sw.
  destruct (AFacts.run_consistent p w0 events) as (a & Ha & Hf & Hr).
  fold sw in Ha, Hf, Hr.
  split; [|split].
  - unfold A.setTheme. destruct sw. by rewrite Hp.
  - simpl. by rewrite Hp.
  - rewrite Hp in Hf. simpl in Hf. rewrite Hr, Ha, <- Hf.
    by destruct f.
Qed.

Lemma forced_theme_locks_the_setter_witness :
  let sw := A.run (forcedProps Dark) (Some freshBrowser)
              [A.EvMount; A.EvMediaChange true; A.EvTick] in
  A.forcedTheme (forcedProps Dark) = Some Dark
  ∧ A.setTheme (forcedProps Dark) Light sw = sw
  ∧ A.resolvedTheme sw.1 = RDark.
Proof.
  pose proof (forced_theme_locks_the_setter (forcedProps Dark) Dark
                (Some freshBrowser) [A.EvMount; A.EvMediaChange true; A.EvTick]
                Light eq_refl) as (H1 & _ & H3).
  split; [reflexivity|]. split; [exact H1|].
  revert H3. generalize (A.resolvedTheme
    (A.run (forcedProps Dark) (Some freshBrowser)
       [A.EvMount; A.EvMediaChange true; A.EvTick]).1).
  intros r. by destruct r.
Defined.

(** ** Calling the setter twice *)





Lemma filter_idem {X : Type} (P : X → Prop) `{∀ x, Decision (P x)} (l : list X) :
  filter P (filter P l) = filter P l.
Proof.
  induction l as [|x l IH]; [reflexivity|].
  rewrite filter_cons. destruct (decide (P x)) as [Hx|Hx]; [|exact IH].
  rewrite filter_cons. destruct (decide (P x)); [|contradiction].
  by rewrite IH.
Qed.



Module ASetterFacts.
Import A ASetter.






End ASetterFacts.

Module BSetterFacts.
Import B BSetter.

Lemma updateTheme_marker attribute newTheme b :
  marker (updateTheme attribute newTheme b)
  = update_marker attribute newTheme (marker b).
Proof.
  unfold updateTheme, update_marker. by destruct (String.eqb attribute "class").
Qed.



Lemma run_tasks_marker ts b :
  marker (foldl (λ acc t, run_task t acc) b ts) = settled_marker (marker b) ts.
Proof.
  revert b. induction ts as [|t ts IH]; intros b; [reflexivity|].
  simpl. rewrite IH. f_equal.
  destruct t; simpl; [reflexivity | apply updateTheme_marker | reflexivity].
Qed.


Lemma tick_marker b : marker (tick b) = settled_marker (marker b) (tasks b).
Proof. unfold tick. by rewrite run_tasks_marker. Qed.


Lemma settled_marker_app m ts1 ts2 :
  settled_marker m (ts1 ++ ts2) = settled_marker (settled_marker m ts1) ts2.
Proof. unfold settled_marker. by rewrite foldl_app. Qed.


Lemma updateTheme_frame attribute newTheme b :
  prefersDark (updateTheme attribute newTheme b) = prefersDark b
  ∧ hasViewTransition (updateTheme attribute newTheme b) = hasViewTransition b
  ∧ localStorage (updateTheme attribute newTheme b) = localStorage b
  ∧ tasks (updateTheme attribute newTheme b) = tasks b
  ∧ head (updateTheme attribute newTheme b) = head b.
Proof. unfold updateTheme. by destruct (String.eqb attribute "class"). Qed.


End BSetterFacts.





(** ** Suppressing transitions during the swap *)

Lemma createElement_fresh b : createElement b ∉ head b.
Proof.
  unfold createElement. intros Hin.
  pose proof (proj1 (list_max_le (head b ++ concat (map task_node (tasks b)))
                       (list_max (head b ++ concat (map task_node (tasks b)))))
                (Nat.le_refl _)) as Hall.
  rewrite List.Forall_forall in Hall.
  specialize (Hall _ (proj1 (list_elem_of_In _ _)
                        (proj2 (elem_of_app _ _ _) (or_introl Hin)))).
  lia.
Qed.





Lemma updateTheme_trace attribute newTheme b :
  ∃ op, is_marker_write op = true
        ∧ trace (updateTheme attribute newTheme b)
          = (trace b ++ [OpClassRemove ["light"; "dark"]; op;
                         OpColorScheme newTheme])%list.
Proof.
  unfold updateTheme. destruct (String.eqb attribute "class"); simpl;
    eexists; rewrite <- !app_assoc; simpl; split; try reflexivity; reflexivity.
Qed.



(** ** The circular reveal *)

Local Open Scope R_scope.



Lemma distance_le_hypot x y cx cy a c :
  (x - cx) * (x - cx) <= a * a → (y - cy) * (y - cy) <= c * c →
  distance x y cx cy <= B.hypot a c.
Proof.
  intros Ha Hc. unfold distance, B.hypot. apply sqrt_le_1_alt. lra.
Qed.


Local Close Scope R_scope.



(** * Further properties *)

(** ** Loading the stored preference in the first provider *)

Lemma recognized_theme_str t : A.recognized (theme_str t) = Some t.
Proof. by destruct t. Qed.

(** X1.  The test of [getStoredTheme] accepts exactly the three strings of
    the enumeration: a stored string is recognized as theme [t] if and only
    if it is the string of [t]. *)
Theorem recognized_iff (stored : string) (t : Theme) :
  A.recognized stored = Some t ↔ stored = theme_str t.
Proof.
  split.
  - unfold A.recognized.
    destruct (String.eqb_spec stored "light") as [->|_]; [by intros [= <-]|].
    destruct (String.eqb_spec stored "dark") as [->|_]; [by intros [= <-]|].
    destruct (String.eqb_spec stored "system") as [->|_]; [by intros [= <-]|].
    discriminate.
  - intros ->. apply recognized_theme_str.
Qed.

(** X2.  [getStoredTheme] returns the default, or else a theme whose string
    is what storage holds under the key, in a browser whose storage can be
    read; it returns the default whenever there is no window, storage access
    is denied, the key is missing or the stored string is not recognized. *)
Theorem getStoredTheme_sound (w : World) (key : string) (defaultTheme : Theme) :
  (A.getStoredTheme w key defaultTheme = defaultTheme
   ∨ ∃ b, w = Some b
          ∧ ls_denied (localStorage b) = false
          ∧ ls_items (localStorage b) !! key
            = Some (theme_str (A.getStoredTheme w key defaultTheme)))
  ∧ (∀ b, w = Some b →
          ls_denied (localStorage b) = true
          ∨ ls_items (localStorage b) !! key = None
          ∨ (∃ stored, ls_items (localStorage b) !! key = Some stored
                       ∧ A.recognized stored = None) →
          A.getStoredTheme w key defaultTheme = defaultTheme).
Proof.
  split.
  - destruct w as [b|]; [|by left]. unfold A.getStoredTheme, getItem.
    destruct (ls_denied (localStorage b)) eqn:Hd; [by left|].
    destruct (ls_items (localStorage b) !! key) as [stored|] eqn:Hk; [|by left].
    destruct (A.recognized stored) as [t|] eqn:Hr; [|by left].
    right. exists b. apply recognized_iff in Hr. by subst.
  - intros b -> H. unfold A.getStoredTheme, getItem.
    destruct H as [Hd | [Hk | (stored & Hk & Hr)]].
    + by rewrite Hd.
    + rewrite Hk. by destruct (ls_denied (localStorage b)).
    + rewrite Hk. destruct (ls_denied (localStorage b)); [reflexivity|].
      by rewrite Hr.
Qed.

(** ** What each operation of the first provider touches *)

Lemma swap_token_shows r cl :
  resolved_str r ∈ swap_token (resolved_str r) cl
  ∧ resolved_str (opposite r) ∉ swap_token (resolved_str r) cl.
Proof.
  unfold swap_token, token_in.
  assert (resolved_str (opposite r) ∉ filter (λ c, c ∉ ["light"; "dark"]) cl) as Hno.
  { intros [Hp _]%list_elem_of_filter. apply Hp. destruct r; simpl.
    - apply elem_of_cons. right. apply list_elem_of_singleton. reflexivity.
    - apply elem_of_cons. by left. }
  destruct (bool_decide _) eqn:Hin.
  - apply bool_decide_eq_true_1 in Hin. by split.
  - split.
    + apply elem_of_app. right. apply list_elem_of_singleton. reflexivity.
    + apply not_elem_of_app. split; [exact Hno|].
      intros H%list_elem_of_singleton. by destruct r.
Qed.

Lemma applyTheme_fields r attribute disableTransition b :
  ∃ b', A.applyTheme r attribute disableTransition (Some b) = Some b'
        ∧ prefersDark b' = prefersDark b
        ∧ localStorage b' = localStorage b
        ∧ cookies b' = cookies b
        ∧ colorScheme b' = colorScheme b
        ∧ classList b'
          = match attribute with
            | A.AttrClass => swap_token (resolved_str r) (classList b)
            | A.AttrDataTheme => classList b
            end
        ∧ attributes b'
          = match attribute with
            | A.AttrClass => attributes b
            | A.AttrDataTheme => <["data-theme" := resolved_str r]> (attributes b)
            end
        ∧ head b'
          = (if disableTransition then head b ++ [createElement b] else head b)%list
        ∧ tasks b'
          = (if disableTransition
             then tasks b ++ [TaskRemoveChild (createElement b)]
             else tasks b)%list.
Proof.
  unfold A.applyTheme. eexists. split; [reflexivity|].
  by destruct disableTransition, attribute.
Qed.

Lemma applyTheme_shows r attribute disableTransition b :
  ∃ b', A.applyTheme r attribute disableTransition (Some b) = Some b'
        ∧ marker_shows attribute r b'.
Proof.
  destruct (applyTheme_fields r attribute disableTransition b)
    as (b' & E & _ & _ & _ & _ & Hc & Ha & _).
  exists b'. split; [exact E|]. unfold marker_shows.
  destruct attribute.
  - rewrite Hc. apply swap_token_shows.
  - rewrite Ha. apply lookup_insert_eq.
Qed.

Lemma try_setItem_fields key value b :
  ∃ b', A.try_setItem key value (Some b) = Some b'
        ∧ dom_same b b'
        ∧ prefersDark b' = prefersDark b
        ∧ cookies b' = cookies b
        ∧ trace b' = trace b
        ∧ localStorage b' = ASetter.saved key value (localStorage b).
Proof.
  unfold A.try_setItem, ASetter.saved, dom_same.
  destruct (setItem (localStorage b) key value); eexists;
    (split; [reflexivity|]); by repeat split.
Qed.

Lemma cookie_mirror_fields p r b :
  ∃ b', A.cookie_mirror p r (Some b) = Some b'
        ∧ dom_same b b'
        ∧ prefersDark b' = prefersDark b
        ∧ localStorage b' = localStorage b
        ∧ cookies b' = ASetter.mirrored p r (cookies b).
Proof.
  unfold A.cookie_mirror, ASetter.mirrored, A.setCookie, dom_same.
  destruct (A.enableCookieStorage p); eexists;
    (split; [reflexivity|]); by repeat split.
Qed.

Lemma marker_shows_same attribute r b b' :
  classList b' = classList b → attributes b' = attributes b →
  marker_shows attribute r b → marker_shows attribute r b'.
Proof.
  intros Hc Ha. unfold marker_shows. destruct attribute; by rewrite ?Hc, ?Ha.
Qed.

Lemma marker_shows_dom_same attribute r b b' :
  dom_same b b' → marker_shows attribute r b → marker_shows attribute r b'.
Proof.
  intros (Hc & Ha & _). unfold marker_shows.
  destruct attribute; by rewrite ?Hc, ?Ha.
Qed.

Lemma createElement_same b b' :
  head b' = head b → tasks b' = tasks b → createElement b' = createElement b.
Proof. intros Hh Ht. unfold createElement. by rewrite Hh, Ht. Qed.

Lemma applied_then_mirrored p r dt b bm b1 b2 :
  dom_same b bm → cookies bm = cookies b →
  A.applyTheme r (A.attribute p) dt (Some bm) = Some b1 →
  dom_same b1 b2 → cookies b2 = cookies b1 →
  ∃ b', A.cookie_mirror p r (Some b2) = Some b' ∧ wrote_marker p r dt b b'
        ∧ prefersDark b' = prefersDark b2 ∧ localStorage b' = localStorage b2.
Proof.
  intros (Hc & Ha & Hs & Hh & Ht) Hk E1 (Hc2 & Ha2 & Hs2 & Hh2 & Ht2) Hk2.
  destruct (applyTheme_fields r (A.attribute p) dt bm)
    as (b1' & E1' & _ & _ & Hk1 & Hs1 & Hc1 & Ha1 & Hh1 & Ht1).
  rewrite E1 in E1'. injection E1' as <-.
  destruct (cookie_mirror_fields p r b2)
    as (b' & E & (Hc3 & Ha3 & Hs3 & Hh3 & Ht3) & Hd3 & Hl3 & Hk3).
  exists b'. split; [exact E|]. split; [|by split].
  unfold wrote_marker.
  rewrite Hc3, Ha3, Hs3, Hh3, Ht3, Hk3, Hc2, Ha2, Hs2, Hh2, Ht2, Hk2.
  rewrite Hc1, Ha1, Hs1, Hh1, Ht1, Hk1, (createElement_same b bm Hh Ht).
  by rewrite Hc, Ha, Hs, Hh, Ht, Hk.
Qed.

Lemma dom_same_refl b : dom_same b b.
Proof. by repeat split. Qed.

(** What one event does to the cells and to the browser: nothing to the DOM,
    the cookies and storage; or one application of the new resolved value,
    followed for a setter call by the guarded write to storage; or one turn
    of the event loop. *)
Lemma step_shapes p e st b :
  ∃ st' b',
    A.step p e (st, Some b) = (st', Some b')
    ∧ ((A.resolvedTheme st' = A.resolvedTheme st
        ∧ A.theme st' = A.theme st
        ∧ dom_same b b' ∧ cookies b' = cookies b
        ∧ localStorage b' = localStorage b ∧ trace b' = trace b)
       ∨ (∃ dt, wrote_marker p (A.resolvedTheme st') dt b b'
                ∧ (dt = true → A.disableTransitionOnChange p = true)
                ∧ ((A.theme st' = A.theme st ∧ localStorage b' = localStorage b)
                   ∨ (∃ x, e = A.EvSetTheme x ∧ A.forcedTheme p = None
                           ∧ A.theme st' = x
                           ∧ localStorage b'
                             = ASetter.saved (A.storageKey p) (theme_str x)
                                 (localStorage b))))
       ∨ (e = A.EvTick ∧ st' = st ∧ b' = tick b)).
Proof.
  destruct e as [ | x | m | m | ].
  - unfold A.step, A.mountEffect.
    set (r := A.resolve _ _).
    destruct (applyTheme_fields r (A.attribute p) false b) as (b1 & E1 & _ & Hl1 & _).
    destruct (applied_then_mirrored p r false b b b1 b1
                (dom_same_refl b) eq_refl E1 (dom_same_refl b1) eq_refl)
      as (b' & E & Hw & _ & Hl).
    rewrite E1, E. eexists _, b'. split; [reflexivity|].
    right; left. exists false. split; [exact Hw|]. split; [discriminate|].
    left. split; [reflexivity|]. by rewrite Hl, Hl1.
  - unfold A.step, A.setTheme.
    destruct (A.forcedTheme p) eqn:Hp.
    + eexists _, b. split; [reflexivity|]. left. by repeat split.
    + set (r := A.resolve _ _).
      destruct (applyTheme_fields r (A.attribute p) (A.disableTransitionOnChange p) b)
        as (b1 & E1 & _ & Hl1 & _).
      destruct (try_setItem_fields (A.storageKey p) (theme_str x) b1)
        as (b2 & E2 & Hd2 & _ & Hk2 & _ & Hl2).
      destruct (applied_then_mirrored p r (A.disableTransitionOnChange p) b b b1 b2
                  (dom_same_refl b) eq_refl E1 Hd2 Hk2)
        as (b' & E & Hw & _ & Hl).
      rewrite E1, E2, E. eexists _, b'. split; [reflexivity|].
      right; left. exists (A.disableTransitionOnChange p).
      split; [exact Hw|]. split; [done|].
      right. exists x. repeat split. by rewrite Hl, Hl2, Hl1.
  - unfold A.step, A.set_media. cbn [fst snd fmap option_fmap option_map].
    unfold A.handleChange.
    destruct (A.theme st) eqn:Ht.
    + eexists _, _. split; [reflexivity|]. left. by repeat split.
    + eexists _, _. split; [reflexivity|]. left. by repeat split.
    + set (r := if m then RDark else RLight).
      destruct (applyTheme_fields r (A.attribute p) (A.disableTransitionOnChange p)
                  (with_prefersDark m b)) as (b1 & E1 & _ & Hl1 & _).
      destruct (applied_then_mirrored p r (A.disableTransitionOnChange p) b
                  (with_prefersDark m b) b1 b1
                  (dom_same_refl b) eq_refl E1 (dom_same_refl b1) eq_refl)
        as (b' & E & Hw & _ & Hl).
      rewrite E1, E. eexists _, b'. split; [reflexivity|].
      right; left. exists (A.disableTransitionOnChange p).
      split; [exact Hw|]. split; [done|].
      left. split; [reflexivity|]. by rewrite Hl, Hl1.
  - eexists _, _. split; [reflexivity|]. left. by repeat split.
  - eexists _, _. split; [reflexivity|]. right; right. by repeat split.
Qed.

(** ** One turn of the event loop *)

Lemma updateTheme_cookies attribute newTheme b :
  cookies (updateTheme attribute newTheme b) = cookies b.
Proof. unfold updateTheme. by destruct (String.eqb attribute "class"). Qed.

Lemma run_tasks_frame ts b :
  tasks (foldl (λ acc t, run_task t acc) b ts) = tasks b
  ∧ cookies (foldl (λ acc t, run_task t acc) b ts) = cookies b
  ∧ localStorage (foldl (λ acc t, run_task t acc) b ts) = localStorage b
  ∧ prefersDark (foldl (λ acc t, run_task t acc) b ts) = prefersDark b.
Proof.
  revert b. induction ts as [|t ts IH]; intros b; [done|].
  cbn [foldl]. destruct (IH (run_task t b)) as (-> & -> & -> & ->).
  destruct t as [css | attribute newTheme | x y r]; cbn [run_task];
    [done | | done].
  destruct (BSetterFacts.updateTheme_frame attribute newTheme b)
    as (-> & _ & -> & -> & _).
  by rewrite updateTheme_cookies.
Qed.

Lemma tick_frame b :
  tasks (tick b) = []
  ∧ cookies (tick b) = cookies b
  ∧ localStorage (tick b) = localStorage b
  ∧ prefersDark (tick b) = prefersDark b.
Proof. unfold tick. by destruct (run_tasks_frame (tasks b) (clear_tasks b)) as (-> & -> & -> & ->). Qed.

Lemma filter_all {X : Type} (P : X → Prop) `{∀ x, Decision (P x)} (l : list X) :
  (∀ x, x ∈ l → P x) → filter P l = l.
Proof.
  induction l as [|x l IH]; intros Hall; [reflexivity|].
  rewrite filter_cons_True by (apply Hall, elem_of_cons; by left).
  rewrite IH; [reflexivity|]. intros y Hy. apply Hall, elem_of_cons. by right.
Qed.

Lemma filter_none {X : Type} (P : X → Prop) `{∀ x, Decision (P x)} (l : list X) :
  (∀ x, x ∈ l → ¬ P x) → filter P l = [].
Proof.
  induction l as [|x l IH]; intros Hall; [reflexivity|].
  rewrite filter_cons_False by (apply Hall, elem_of_cons; by left).
  apply IH. intros y Hy. apply Hall, elem_of_cons. by right.
Qed.

Lemma run_removals ts b :
  only_removals ts = true →
  classList (foldl (λ acc t, run_task t acc) b ts) = classList b
  ∧ attributes (foldl (λ acc t, run_task t acc) b ts) = attributes b
  ∧ colorScheme (foldl (λ acc t, run_task t acc) b ts) = colorScheme b
  ∧ head (foldl (λ acc t, run_task t acc) b ts)
    = filter (λ n, n ∉ pending_nodes ts) (head b).
Proof.
  revert b. induction ts as [|t ts IH]; intros b Hts.
  - cbn [foldl]. repeat split. symmetry. apply filter_all.
    intros n _. apply not_elem_of_nil.
  - destruct t as [css | |]; try discriminate.
    cbn [foldl run_task]. destruct (IH (removeChild css b) Hts) as (-> & -> & -> & ->).
    repeat split. cbn [head removeChild log].
    rewrite list_filter_filter. apply list_filter_iff. intros n.
    unfold pending_nodes. cbn [map concat task_node app].
    rewrite not_elem_of_cons. tauto.
Qed.

Lemma tick_removals b :
  only_removals (tasks b) = true →
  classList (tick b) = classList b
  ∧ attributes (tick b) = attributes b
  ∧ colorScheme (tick b) = colorScheme b
  ∧ head (tick b) = filter (λ n, n ∉ pending_nodes (tasks b)) (head b).
Proof. intros H. unfold tick. by destruct (run_removals (tasks b) (clear_tasks b) H) as (-> & -> & -> & ->). Qed.

Lemma only_removals_snoc ts css :
  only_removals (ts ++ [TaskRemoveChild css]) = only_removals ts.
Proof. unfold only_removals. rewrite forallb_app. simpl. by rewrite !andb_true_r. Qed.

Lemma pending_nodes_snoc ts css :
  pending_nodes (ts ++ [TaskRemoveChild css]) = (pending_nodes ts ++ [css])%list.
Proof.
  unfold pending_nodes. rewrite map_app, concat_app. simpl. reflexivity.
Qed.

Lemma wrote_marker_shows p r dt b b' :
  wrote_marker p r dt b b' → marker_shows (A.attribute p) r b'.
Proof.
  intros (Hc & Ha & _). unfold marker_shows. destruct (A.attribute p).
  - rewrite Hc. apply swap_token_shows.
  - rewrite Ha. apply lookup_insert_eq.
Qed.

Lemma wrote_marker_removals p r dt b b' :
  wrote_marker p r dt b b' → only_removals (tasks b') = only_removals (tasks b).
Proof.
  intros (_ & _ & _ & _ & Ht & _). rewrite Ht.
  destruct dt; [apply only_removals_snoc | reflexivity].
Qed.

Lemma run_mount_snoc p w0 events e :
  A.run p w0 (A.EvMount :: events ++ [e])
  = A.step p e (A.run p w0 (A.EvMount :: events)).
Proof. rewrite app_comm_cons. apply AFacts.run_snoc. Qed.

(** The mount effect applies the resolved value without installing the style
    rule and writes nothing to storage. *)
Lemma mountEffect_fields p st b :
  ∃ b', A.mountEffect p (st, Some b)
        = ({| A.theme := A.theme st; A.systemTheme := A.systemTheme st;
              A.resolvedTheme :=
                A.resolve (A.forced_or (A.forcedTheme p) (A.theme st))
                  (A.system_or (A.systemTheme st) (Some b)) |}, Some b')
        ∧ wrote_marker p
            (A.resolve (A.forced_or (A.forcedTheme p) (A.theme st))
               (A.system_or (A.systemTheme st) (Some b))) false b b'
        ∧ localStorage b' = localStorage b.
Proof.
  unfold A.mountEffect. set (r := A.resolve _ _).
  destruct (applyTheme_fields r (A.attribute p) false b) as (b1 & E1 & _ & Hl1 & _).
  destruct (applied_then_mirrored p r false b b b1 b1
              (dom_same_refl b) eq_refl E1 (dom_same_refl b1) eq_refl)
    as (b' & E & Hw & _ & Hl).
  rewrite E1, E. exists b'. split; [reflexivity|]. split; [exact Hw|].
  by rewrite Hl, Hl1.
Qed.

(** ** Invariants of the first provider over sequences of events *)

Lemma marker_invariant p b0 events :
  only_removals (tasks b0) = true →
  ∃ st b, A.run p (Some b0) (A.EvMount :: events) = (st, Some b)
          ∧ only_removals (tasks b) = true
          ∧ marker_shows (A.attribute p) (A.resolvedTheme st) b.
Proof.
  intros H0. induction events as [|e events IH] using rev_ind.
  - unfold A.run. cbn [foldl A.step].
    destruct (mountEffect_fields p (A.init p (Some b0)) b0) as (b' & E & Hw & _).
    eexists _, b'. split; [exact E|]. split.
    + by rewrite (wrote_marker_removals _ _ _ _ _ Hw).
    + apply (wrote_marker_shows _ _ _ _ _ Hw).
  - rewrite run_mount_snoc. destruct IH as (st & b & E0 & Ht & Hm). rewrite E0.
    destruct (step_shapes p e st b) as (st' & b' & E & Hshape).
    exists st', b'. split; [exact E|].
    destruct Hshape as [(Hr & _ & Hd & _) | [(dt & Hw & _) | (_ & -> & ->)]].
    + rewrite Hr. split; [|by apply (marker_shows_dom_same _ _ b)].
      destruct Hd as (_ & _ & _ & _ & ->). exact Ht.
    + split; [by rewrite (wrote_marker_removals _ _ _ _ _ Hw)|].
      apply (wrote_marker_shows _ _ _ _ _ Hw).
    + destruct (tick_frame b) as (Htk & _).
      destruct (tick_removals b Ht) as (Hc & Ha & _).
      split; [by rewrite Htk|]. by apply (marker_shows_same _ _ b).
Qed.

(** X3.  Once the mount effect has run, the root element shows the
    resolved value after every further event (setter calls, ambient changes
    with or without a listener, repeated mount effects, turns of the event
    loop): in class mode its class is there and the other one is not, in
    attribute mode [data-theme] holds it.  The callbacks pending at the start
    must all be removals of style elements. *)
Theorem marker_always_shows_resolved
    (p : A.Props) (b0 : Browser) (events : list A.Event) :
  only_removals (tasks b0) = true →
  ∃ b, (A.run p (Some b0) (A.EvMount :: events)).2 = Some b
       ∧ marker_shows (A.attribute p)
           (A.resolvedTheme (A.run p (Some b0) (A.EvMount :: events)).1) b.
Proof.
  intros H0. destruct (marker_invariant p b0 events H0) as (st & b & E & _ & Hm).
  rewrite E. by exists b.
Qed.

Lemma marker_always_shows_resolved_witness :
  only_removals (tasks freshBrowser) = true
  ∧ ∃ b, (A.run A.defaultProps (Some freshBrowser)
            [A.EvMount; A.EvSetTheme Light; A.EvTick]).2 = Some b
         ∧ "light" ∈ classList b ∧ "dark" ∉ classList b.
Proof.
  split; [reflexivity|].
  destruct (marker_always_shows_resolved A.defaultProps freshBrowser
              [A.EvSetTheme Light; A.EvTick] eq_refl) as (b & E & Hm).
  exists b. split; [exact E|]. exact Hm.
Defined.

Lemma cookies_invariant_off p b0 events :
  A.enableCookieStorage p = false →
  ∃ st b, A.run p (Some b0) events = (st, Some b) ∧ cookies b = cookies b0.
Proof.
  intros Hoff. induction events as [|e events IH] using rev_ind.
  - by eexists _, b0.
  - rewrite AFacts.run_snoc. destruct IH as (st & b & E0 & Hk). rewrite E0.
    destruct (step_shapes p e st b) as (st' & b' & E & Hshape).
    exists st', b'. split; [exact E|].
    destruct Hshape as [(_ & _ & _ & -> & _) | [(dt & Hw & _) | (_ & _ & ->)]].
    + exact Hk.
    + destruct Hw as (_ & _ & _ & _ & _ & ->).
      unfold ASetter.mirrored. by rewrite Hoff.
    + by destruct (tick_frame b) as (_ & -> & _).
Qed.

(** X4.  With the cookie mirror disabled the first provider never writes a
    cookie: after the first render and any sequence of events the cookie jar
    is the initial one. *)
Theorem cookies_untouched_when_mirror_disabled
    (p : A.Props) (b0 : Browser) (events : list A.Event) :
  A.enableCookieStorage p = false →
  ∃ b, (A.run p (Some b0) events).2 = Some b ∧ cookies b = cookies b0.
Proof.
  intros Hoff. destruct (cookies_invariant_off p b0 events Hoff) as (st & b & E & Hk).
  rewrite E. by exists b.
Qed.

Lemma cookies_untouched_when_mirror_disabled_witness :
  A.enableCookieStorage A.defaultProps = false
  ∧ ∃ b, (A.run A.defaultProps (Some freshBrowser)
            [A.EvMount; A.EvSetTheme Light]).2 = Some b
         ∧ cookies b = ∅.
Proof.
  split; [reflexivity|].
  exact (cookies_untouched_when_mirror_disabled A.defaultProps freshBrowser
           [A.EvMount; A.EvSetTheme Light] eq_refl).
Defined.




Lemma style_invariant p b0 events :
  tasks b0 = [] →
  ∃ st b, A.run p (Some b0) events = (st, Some b)
          ∧ only_removals (tasks b) = true
          ∧ head b = (head b0 ++ pending_nodes (tasks b))%list
          ∧ (∀ n, n ∈ pending_nodes (tasks b) → n ∉ head b0).
Proof.
  intros H0. induction events as [|e events IH] using rev_ind.
  - eexists _, b0. split; [reflexivity|]. rewrite H0.
    split; [reflexivity|]. split; [by rewrite app_nil_r|].
    intros n Hn. by apply elem_of_nil in Hn.
  - rewrite AFacts.run_snoc. destruct IH as (st & b & E0 & Hr & Hh & Hp). rewrite E0.
    destruct (step_shapes p e st b) as (st' & b' & E & Hshape).
    exists st', b'. split; [exact E|].
    destruct Hshape as [(_ & _ & Hd & _) | [(dt & Hw & _) | (_ & _ & ->)]].
    + destruct Hd as (_ & _ & _ & -> & ->). by repeat split.
    + split; [by rewrite (wrote_marker_removals _ _ _ _ _ Hw)|].
      destruct Hw as (_ & _ & _ & -> & -> & _). destruct dt; [|by split].
      rewrite pending_nodes_snoc, Hh, <- app_assoc. split; [reflexivity|].
      intros n [Hn | ->%list_elem_of_singleton]%elem_of_app; [by apply Hp|].
      intros Hin. apply (createElement_fresh b). rewrite Hh.
      apply elem_of_app. by left.
    + destruct (tick_frame b) as (-> & _).
      destruct (tick_removals b Hr) as (_ & _ & _ & ->).
      split; [reflexivity|]. split.
      * rewrite Hh, filter_app, app_nil_r.
        rewrite (filter_all _ (head b0)) by (intros n Hn Hpn; by apply (Hp n)).
        rewrite (filter_none _ (pending_nodes (tasks b))); [by rewrite app_nil_r|].
        intros n Hn Hnot. by apply Hnot.
      * intros n Hn. by apply elem_of_nil in Hn.
Qed.

(** X6.  The style elements installed to suppress transitions do not
    accumulate: starting from a page with no pending callback, after any
    sequence of events followed by one turn of the event loop, the style
    elements under [head] are exactly the initial ones and no callback is
    pending. *)
Theorem style_rules_do_not_leak
    (p : A.Props) (b0 : Browser) (events : list A.Event) :
  tasks b0 = [] →
  ∃ b, (A.run p (Some b0) (events ++ [A.EvTick])).2 = Some b
       ∧ head b = head b0 ∧ tasks b = [].
Proof.
  intros H0. rewrite AFacts.run_snoc.
  destruct (style_invariant p b0 events H0) as (st & b & E & Hr & Hh & Hp).
  rewrite E. cbn [A.step fst snd fmap option_fmap option_map].
  exists (tick b). split; [reflexivity|].
  destruct (tick_frame b) as (Ht & _).
  destruct (tick_removals b Hr) as (_ & _ & _ & Hhead).
  split; [|exact Ht].
  rewrite Hhead, Hh, filter_app.
  rewrite (filter_all _ (head b0)) by (intros n Hn Hpn; by apply (Hp n)).
  rewrite (filter_none _ (pending_nodes (tasks b))); [by rewrite app_nil_r|].
  intros n Hn Hnot. by apply Hnot.
Qed.

Lemma style_rules_do_not_leak_witness :
  tasks freshBrowser = []
  ∧ ∃ b, (A.run A.defaultProps (Some freshBrowser)
            ([A.EvMount; A.EvSetTheme Light; A.EvSetTheme Dark] ++ [A.EvTick])).2
         = Some b
         ∧ head b = [] ∧ tasks b = [].
Proof.
  split; [reflexivity|].
  exact (style_rules_do_not_leak A.defaultProps freshBrowser
           [A.EvMount; A.EvSetTheme Light; A.EvSetTheme Dark] eq_refl).
Defined.

(** ** Persistence of the declared preference *)

Lemma getStoredTheme_storage b b' key defaultTheme :
  localStorage b' = localStorage b →
  A.getStoredTheme (Some b') key defaultTheme
  = A.getStoredTheme (Some b) key defaultTheme.
Proof. intros H. unfold A.getStoredTheme. by rewrite H. Qed.

Lemma saved_writable key value s :
  ls_denied s = false → ls_full s = false →
  ls_denied (ASetter.saved key value s) = false
  ∧ ls_full (ASetter.saved key value s) = false
  ∧ ls_items (ASetter.saved key value s) !! key = Some value.
Proof.
  intros Hd Hf. unfold ASetter.saved, setItem. rewrite Hd, Hf. simpl.
  repeat split. apply lookup_insert_eq.
Qed.

Lemma saved_unwritable key value s :
  ls_denied s = true ∨ ls_full s = true → ASetter.saved key value s = s.
Proof.
  intros H. unfold ASetter.saved, setItem.
  destruct H as [-> | ->]; [reflexivity | by rewrite orb_true_r].
Qed.

Lemma storage_invariant p b0 events :
  A.forcedTheme p = None →
  ls_denied (localStorage b0) = false → ls_full (localStorage b0) = false →
  ∃ st b, A.run p (Some b0) events = (st, Some b)
          ∧ ls_denied (localStorage b) = false
          ∧ ls_full (localStorage b) = false
          ∧ A.getStoredTheme (Some b) (A.storageKey p) (A.defaultTheme p)
            = A.theme st.
Proof.
  intros Hp Hd0 Hf0. induction events as [|e events IH] using rev_ind.
  - eexists _, b0. split; [reflexivity|]. repeat split; try done.
    simpl. by rewrite Hp.
  - rewrite AFacts.run_snoc. destruct IH as (st & b & E0 & Hd & Hf & Hs). rewrite E0.
    destruct (step_shapes p e st b) as (st' & b' & E & Hshape).
    exists st', b'. split; [exact E|].
    destruct Hshape
      as [(_ & Ht & _ & _ & Hl & _)
         | [(dt & _ & _ & [(Ht & Hl) | (x & _ & _ & Ht & Hl)]) | (_ & -> & ->)]].
    + rewrite Hl, Ht, (getStoredTheme_storage b b' _ _ Hl). by repeat split.
    + rewrite Hl, Ht, (getStoredTheme_storage b b' _ _ Hl). by repeat split.
    + destruct (saved_writable (A.storageKey p) (theme_str x) _ Hd Hf)
        as (Hd' & Hf' & Hi').
      rewrite <- Hl in Hd', Hf', Hi'. repeat split; try done.
      unfold A.getStoredTheme, getItem.
      by rewrite Hd', Hi', recognized_theme_str.
    + destruct (tick_frame b) as (_ & _ & Hl & _).
      rewrite Hl, (getStoredTheme_storage b (tick b) _ _ Hl). by repeat split.
Qed.

(** X7.  With no forced theme and a storage area that can be read and
    written, the stored preference follows the declared one: after the first
    render and any sequence of events, a provider constructed afresh in the
    browser as it is then (a reload) starts with the declared preference the
    running provider has. *)
Theorem reload_restores_declared_preference
    (p : A.Props) (b0 : Browser) (events : list A.Event) :
  A.forcedTheme p = None →
  ls_denied (localStorage b0) = false →
  ls_full (localStorage b0) = false →
  A.theme (A.init p (A.run p (Some b0) events).2)
  = A.theme (A.run p (Some b0) events).1.
Proof.
  intros Hp Hd Hf.
  destruct (storage_invariant p b0 events Hp Hd Hf) as (st & b & E & _ & _ & Hs).
  rewrite E. simpl. by rewrite Hp.
Qed.

Lemma reload_restores_declared_preference_witness :
  A.forcedTheme A.defaultProps = None
  ∧ ls_denied (localStorage freshBrowser) = false
  ∧ ls_full (localStorage freshBrowser) = false
  ∧ A.theme (A.init A.defaultProps
               (A.run A.defaultProps (Some freshBrowser)
                  [A.EvMount; A.EvSetTheme System; A.EvTick]).2)
    = System.
Proof.
  repeat (split; [reflexivity|]).
  rewrite (reload_restores_declared_preference A.defaultProps freshBrowser
             [A.EvMount; A.EvSetTheme System; A.EvTick] eq_refl eq_refl eq_refl).
  reflexivity.
Defined.

Lemma step_theme p e sw :
  A.forcedTheme p = None →
  A.theme (A.step p e sw).1
  = match e with A.EvSetTheme x => x | _ => A.theme sw.1 end.
Proof.
  intros Hp. destruct sw as [st w].
  destruct e as [ | x | m | m | ]; cbn [A.step fst snd]; try reflexivity.
  - unfold A.setTheme. by rewrite Hp.
  - destruct w as [b|]; [|reflexivity]. unfold A.handleChange.
    by destruct (A.theme st).
Qed.

(** X8.  With no forced theme, the declared preference changes only through
    the setter: after the first render and any sequence of events it is the
    argument of the last setter call, or the initial value when the setter
    was not called; mount effects, ambient changes and timers never change
    it.  This is stated in a browser, where React keeps the state updates of
    the setter. *)
Theorem declared_preference_is_last_set
    (p : A.Props) (b0 : Browser) (events : list A.Event) :
  A.forcedTheme p = None →
  A.theme (A.run p (Some b0) events).1
  = last_set (A.getStoredTheme (Some b0) (A.storageKey p) (A.defaultTheme p))
      events.
Proof.
  intros Hp. induction events as [|e events IH] using rev_ind.
  - simpl. by rewrite Hp.
  - rewrite AFacts.run_snoc, (step_theme p e _ Hp), IH.
    unfold last_set. by rewrite foldl_app.
Qed.

Lemma declared_preference_is_last_set_witness :
  A.forcedTheme A.defaultProps = None
  ∧ A.theme (A.run A.defaultProps (Some freshBrowser)
               [A.EvMount; A.EvSetTheme Light; A.EvSetTheme System;
                A.EvMediaChange true; A.EvTick]).1
    = System.
Proof.
  split; [reflexivity|].
  exact (declared_preference_is_last_set A.defaultProps freshBrowser
           [A.EvMount; A.EvSetTheme Light; A.EvSetTheme System;
            A.EvMediaChange true; A.EvTick] eq_refl).
Defined.

(** ** Single operations of the first provider *)

Lemma setTheme_fields p x st b :
  A.forcedTheme p = None →
  ∃ b', A.setTheme p x (st, Some b)
        = ({| A.theme := x; A.systemTheme := A.systemTheme st;
              A.resolvedTheme :=
                A.resolve x (A.system_or (A.systemTheme st) (Some b)) |}, Some b')
        ∧ wrote_marker p (A.resolve x (A.system_or (A.systemTheme st) (Some b)))
            (A.disableTransitionOnChange p) b b'
        ∧ localStorage b'
          = ASetter.saved (A.storageKey p) (theme_str x) (localStorage b).
Proof.
  intros Hp. unfold A.setTheme. rewrite Hp. set (r := A.resolve _ _).
  destruct (applyTheme_fields r (A.attribute p) (A.disableTransitionOnChange p) b)
    as (b1 & E1 & _ & Hl1 & _).
  destruct (try_setItem_fields (A.storageKey p) (theme_str x) b1)
    as (b2 & E2 & Hd2 & _ & Hk2 & _ & Hl2).
  destruct (applied_then_mirrored p r (A.disableTransitionOnChange p) b b b1 b2
              (dom_same_refl b) eq_refl E1 Hd2 Hk2)
    as (b' & E & Hw & _ & Hl).
  rewrite E1, E2, E. exists b'. split; [reflexivity|]. split; [exact Hw|].
  by rewrite Hl, Hl2, Hl1.
Qed.

(** X9.  Persistence is best effort: when [localStorage] denies access or is
    full, a setter call (no forced theme) still updates the declared and the
    resolved value and writes the marker; storage is left as it was, and a
    reload then falls back to what storage held before. *)
Theorem setter_survives_storage_failure
    (p : A.Props) (x : Theme) (st : A.State) (b : Browser) :
  A.forcedTheme p = None →
  ls_denied (localStorage b) = true ∨ ls_full (localStorage b) = true →
  ∃ st' b',
    A.setTheme p x (st, Some b) = (st', Some b')
    ∧ A.theme st' = x
    ∧ A.resolvedTheme st' = A.resolve x (A.system_or (A.systemTheme st) (Some b))
    ∧ marker_shows (A.attribute p) (A.resolvedTheme st') b'
    ∧ localStorage b' = localStorage b
    ∧ A.getStoredTheme (Some b') (A.storageKey p) (A.defaultTheme p)
      = A.getStoredTheme (Some b) (A.storageKey p) (A.defaultTheme p).
Proof.
  intros Hp Hfail.
  destruct (setTheme_fields p x st b Hp) as (b' & E & Hw & Hl).
  rewrite (saved_unwritable _ _ _ Hfail) in Hl.
  eexists _, b'. split; [exact E|]. cbn [A.theme A.resolvedTheme].
  repeat split; [apply (wrote_marker_shows _ _ _ _ _ Hw) | exact Hl |].
  by apply getStoredTheme_storage.
Qed.

Lemma setter_survives_storage_failure_witness :
  A.forcedTheme A.defaultProps = None
  ∧ (ls_denied (localStorage fullStorageBrowser) = true
     ∨ ls_full (localStorage fullStorageBrowser) = true)
  ∧ ∃ st' b',
      A.setTheme A.defaultProps Dark
        (A.init A.defaultProps (Some fullStorageBrowser), Some fullStorageBrowser)
      = (st', Some b')
      ∧ A.theme st' = Dark
      ∧ A.getStoredTheme (Some b') "theme" Dark = Light.
Proof.
  split; [reflexivity|]. split; [by right|].
  destruct (setter_survives_storage_failure A.defaultProps Dark
              (A.init A.defaultProps (Some fullStorageBrowser))
              fullStorageBrowser eq_refl (or_intror eq_refl))
    as (st' & b' & E & Ht & _ & _ & _ & Hs).
  exists st', b'. split; [exact E|]. split; [exact Ht|]. exact Hs.
Defined.

(** X10.  An ambient change delivered to the listener is recorded as the new
    tracked ambient value.  While the declared preference is light or dark it
    changes nothing else: the resolved value stays, and no DOM operation, no
    storage write and no cookie write happens.  While it is system, the
    resolved value becomes the new ambient value and the marker shows it;
    storage is not written. *)
Theorem ambient_change_follows_only_system
    (p : A.Props) (matches : bool) (st : A.State) (b : Browser) :
  let a := if matches then RDark else RLight in
  ∃ st' b',
    A.step p (A.EvMediaChange matches) (st, Some b) = (st', Some b')
    ∧ A.systemTheme st' = Some a
    ∧ A.theme st' = A.theme st
    ∧ prefersDark b' = matches
    ∧ localStorage b' = localStorage b
    ∧ match A.theme st with
      | System =>
          A.resolvedTheme st' = a ∧ marker_shows (A.attribute p) a b'
      | _ =>
          A.resolvedTheme st' = A.resolvedTheme st
          ∧ b' = with_prefersDark matches b
      end.
Proof.
  intros a. unfold A.step, A.set_media.
  cbn [fst snd fmap option_fmap option_map]. unfold A.handleChange.
  destruct (A.theme st) eqn:Ht.
  - eexists _, _. split; [reflexivity|]. by repeat split.
  - eexists _, _. split; [reflexivity|]. by repeat split.
  - fold a.
    destruct (applyTheme_fields a (A.attribute p) (A.disableTransitionOnChange p)
                (with_prefersDark matches b)) as (b1 & E1 & Hd1 & Hl1 & _).
    destruct (applied_then_mirrored p a (A.disableTransitionOnChange p) b
                (with_prefersDark matches b) b1 b1
                (dom_same_refl b) eq_refl E1 (dom_same_refl b1) eq_refl)
      as (b' & E & Hw & Hd & Hl).
    rewrite E1, E. eexists _, b'. split; [reflexivity|].
    cbn [A.systemTheme A.theme A.resolvedTheme].
    repeat split; [by rewrite Hd, Hd1 | by rewrite Hl, Hl1 |].
    apply (wrote_marker_shows _ _ _ _ _ Hw).
Qed.

(** X11.  The mount effect applies the resolved value at once: the marker
    shows it when the effect returns, no style element is installed, no
    callback is scheduled and storage is not written. *)
Theorem mount_effect_applies_without_suppression
    (p : A.Props) (st : A.State) (b : Browser) :
  ∃ st' b',
    A.mountEffect p (st, Some b) = (st', Some b')
    ∧ A.resolvedTheme st'
      = A.resolve (A.forced_or (A.forcedTheme p) (A.theme st))
          (A.system_or (A.systemTheme st) (Some b))
    ∧ marker_shows (A.attribute p) (A.resolvedTheme st') b'
    ∧ head b' = head b ∧ tasks b' = tasks b
    ∧ localStorage b' = localStorage b.
Proof.
  destruct (mountEffect_fields p st b) as (b' & E & Hw & Hl).
  eexists _, b'. split; [exact E|]. cbn [A.resolvedTheme].
  split; [reflexivity|]. split; [apply (wrote_marker_shows _ _ _ _ _ Hw)|].
  destruct Hw as (_ & _ & _ & Hh & Ht & _). by repeat split.
Qed.

Lemma swap_token_keeps_others t cl :
  t ∈ ["light"; "dark"] →
  filter (λ c, c ∉ ["light"; "dark"]) (swap_token t cl)
  = filter (λ c, c ∉ ["light"; "dark"]) cl.
Proof.
  intros Ht. unfold swap_token. destruct (token_in _ _).
  - apply filter_idem.
  - rewrite filter_app, filter_idem.
    rewrite (filter_cons_False _ t []) by (intros H; by apply H).
    by rewrite filter_nil, app_nil_r.
Qed.

Lemma swap_token_NoDup t cl : NoDup cl → NoDup (swap_token t cl).
Proof.
  intros Hnd. unfold swap_token, token_in.
  destruct (bool_decide _) eqn:Hin.
  - by apply NoDup_filter.
  - apply bool_decide_eq_false_1 in Hin. apply NoDup_app.
    split; [by apply NoDup_filter|]. split.
    + intros c Hc ->%list_elem_of_singleton. contradiction.
    + apply NoDup_singleton.
Qed.

(** X12.  In class mode [applyTheme] touches only the tokens [light] and
    [dark]: every other class of the root element is kept, in the same
    order, and a class list without duplicates stays without duplicates.
    In attribute mode the class list is not touched at all. *)
Theorem applyTheme_keeps_other_classes
    (r : ResolvedTheme) (attribute : A.Attribute) (disableTransition : bool)
    (b : Browser) :
  ∃ b', A.applyTheme r attribute disableTransition (Some b) = Some b'
        ∧ match attribute with
          | A.AttrClass =>
              filter (λ c, c ∉ ["light"; "dark"]) (classList b')
              = filter (λ c, c ∉ ["light"; "dark"]) (classList b)
              ∧ (NoDup (classList b) → NoDup (classList b'))
              ∧ attributes b' = attributes b
          | A.AttrDataTheme =>
              classList b' = classList b
              ∧ ∀ name, name ≠ "data-theme" →
                        attributes b' !! name = attributes b !! name
          end.
Proof.
  destruct (applyTheme_fields r attribute disableTransition b)
    as (b' & E & _ & _ & _ & _ & Hc & Ha & _).
  exists b'. split; [exact E|]. destruct attribute.
  - rewrite Hc, Ha. split; [|split; [apply swap_token_NoDup | reflexivity]].
    apply swap_token_keeps_others. destruct r; simpl.
    + apply elem_of_cons. by left.
    + apply elem_of_cons. right. apply list_elem_of_singleton. reflexivity.
  - rewrite Hc, Ha. split; [reflexivity|].
    intros name Hn. by rewrite lookup_insert_ne.
Qed.

(** ** The second provider: construction and resolution *)

(** X13.  Constructing the second provider fails exactly when there is a
    window whose [localStorage] denies access (the read of lines 219-221 is
    not guarded); otherwise the declared theme it starts with is never the
    empty string: it is the string of the default theme, or the non-empty
    string stored under the key. *)
Theorem B_init_throws_iff_storage_denied (p : B.Props) (w : World) :
  ((∃ e, B.init p w = Throw e)
   ↔ ∃ b, w = Some b ∧ ls_denied (localStorage b) = true)
  ∧ (∀ st, B.init p w = Ok st →
           B.theme st ≠ ""
           ∧ (B.theme st = theme_str (B.defaultTheme p)
              ∨ ∃ b, w = Some b
                     ∧ ls_items (localStorage b) !! B.storageKey p
                       = Some (B.theme st))).
Proof.
  assert (theme_str (B.defaultTheme p) ≠ "") as Hne
      by (by destruct (B.defaultTheme p)).
  unfold B.init, B.initTheme, getItem. split; [split|].
  - intros [e He]. destruct w as [b|]; [|discriminate].
    exists b. split; [reflexivity|].
    destruct (ls_denied (localStorage b)); [reflexivity|].
    by destruct (ls_items (localStorage b) !! B.storageKey p).
  - intros (b & -> & ->). by eexists.
  - intros st. destruct w as [b|].
    + destruct (ls_denied (localStorage b)); [discriminate|].
      destruct (ls_items (localStorage b) !! B.storageKey p) as [stored|] eqn:Hk.
      * destruct (String.eqb_spec stored "") as [->|Hs]; intros [= <-]; simpl.
        -- split; [exact Hne | by left].
        -- split; [exact Hs|]. right. by exists b.
      * intros [= <-]. simpl. split; [exact Hne | by left].
    + intros [= <-]. simpl. split; [exact Hne | by left].
Qed.

Lemma B_init_throws_iff_storage_denied_witness :
  B.init B.defaultProps (Some deniedStorageBrowser) = Throw StorageError
  ∧ ∃ b, Some deniedStorageBrowser = Some b
         ∧ ls_denied (localStorage b) = true.
Proof.
  split; [reflexivity|].
  apply (proj1 (B_init_throws_iff_storage_denied B.defaultProps
                  (Some deniedStorageBrowser))).
  by exists StorageError.
Defined.

(** X14.  [resolveTheme] never returns [system], returns every other string
    unchanged whatever the ambient value is, and is idempotent. *)
Theorem B_resolveTheme_idempotent (w : World) (currentTheme : string) :
  B.resolveTheme w currentTheme ≠ "system"
  ∧ (currentTheme ≠ "system" → B.resolveTheme w currentTheme = currentTheme)
  ∧ B.resolveTheme w (B.resolveTheme w currentTheme) = B.resolveTheme w currentTheme.
Proof.
  unfold B.resolveTheme.
  destruct (String.eqb_spec currentTheme "system") as [->|Hne].
  - assert (resolved_str (B.getSystemTheme w) ≠ "system") as Hr
        by (by destruct (B.getSystemTheme w)).
    split; [exact Hr|]. split; [done|].
    by destruct (String.eqb_spec (resolved_str (B.getSystemTheme w)) "system").
  - split; [exact Hne|]. split; [done|].
    by destruct (String.eqb_spec currentTheme "system").
Qed.

Lemma B_resolveTheme_idempotent_witness :
  "purple" ≠ "system"
  ∧ B.resolveTheme (Some darkBrowser) "purple" = "purple".
Proof.
  split; [discriminate|].
  destruct (B_resolveTheme_idempotent (Some darkBrowser) "purple") as (_ & H & _).
  apply H. discriminate.
Defined.



(** ** The second provider: view transitions *)

Lemma animations_app ops1 ops2 :
  animations (ops1 ++ ops2) = animations ops1 + animations ops2.
Proof. unfold animations. by rewrite filter_app, length_app. Qed.

Lemma animations_cons op ops :
  animations (op :: ops) = (if is_animate op then 1 else 0) + animations ops.
Proof.
  unfold animations. rewrite filter_cons.
  destruct (decide (is_animate op = true)) as [H|H].
  - by rewrite H.
  - by destruct (is_animate op).
Qed.

Lemma animations_nil : animations [] = 0.
Proof. reflexivity. Qed.

Ltac count_animations :=
  rewrite ?animations_app, ?animations_cons, ?animations_nil,
    ?sum_list_with_app;
  simpl; lia.

Lemma updateTheme_animations attribute newTheme b :
  animations (trace (updateTheme attribute newTheme b)) = animations (trace b).
Proof.
  destruct (updateTheme_trace attribute newTheme b) as (op & Hop & ->).
  destruct op; try discriminate; count_animations.
Qed.

Lemma run_tasks_animations ts b :
  animations (trace (foldl (λ acc t, run_task t acc) b ts))
  = animations (trace b) + sum_list_with task_animations ts.
Proof.
  revert b. induction ts as [|t ts IH]; intros b.
  - simpl. lia.
  - cbn [foldl]. rewrite IH. cbn [sum_list_with].
    destruct t; cbn [run_task task_animations].
    + simpl. count_animations.
    + rewrite updateTheme_animations. lia.
    + simpl. count_animations.
Qed.

Lemma tick_animations b :
  animations (trace (tick b))
  = animations (trace b) + sum_list_with task_animations (tasks b).
Proof. unfold tick. by rewrite run_tasks_animations. Qed.

(** X16.  With view transitions enabled and available, [applyTheme] called
    with a resolved value (light or dark) writes nothing at once, whoever
    calls it and whatever [disableTransitionOnChange] says: when it returns
    the marker is unchanged and no style element was installed; it only
    started a view transition.  The marker is written by the update
    callback: after the next turn of the event loop it is what [updateTheme]
    makes of it.  The attribute prop is [class] or a plain attribute name,
    and no view transition is pending when the call is made. *)
Theorem view_transition_defers_marker_write
    (p : B.Props) (r : ResolvedTheme) (clickEvent : option MouseEvent)
    (b : Browser) :
  B.enableViewTransitions p = true →
  hasViewTransition b = true →
  attribute_ok (B.attribute p) = true →
  only_removals (tasks b) = true →
  ∃ b', B.applyTheme p (resolved_str r) clickEvent (Some b) = Ok (Some b')
        ∧ marker b' = marker b
        ∧ head b' = head b
        ∧ trace b' = (trace b ++ [OpStartViewTransition])%list
        ∧ marker (tick b')
          = BSetter.update_marker (B.attribute p) (resolved_str r) (marker b).
Proof.
  intros Hen Hvt _ Hrem. unfold B.applyTheme. rewrite Hen, Hvt. simpl.
  assert (BSetter.settled_marker (marker b) (tasks b) = marker b) as Hsettled.
  { rewrite <- BSetterFacts.tick_marker.
    destruct (tick_removals b Hrem) as (Hc & Ha & Hs & _).
    unfold marker. by rewrite Hc, Ha, Hs. }
  destruct clickEvent as [e|]; eexists; (split; [reflexivity|]);
    (split; [reflexivity|]); (split; [reflexivity|]); (split; [reflexivity|]);
    rewrite !BSetterFacts.tick_marker; cbn [tasks enqueue log];
    rewrite ?BSetterFacts.settled_marker_app;
    change (marker (enqueue _ (enqueue _ (log _ b)))) with (marker b);
    change (marker (enqueue _ (log _ b))) with (marker b);
    rewrite Hsettled; reflexivity.
Qed.

Lemma view_transition_defers_marker_write_witness :
  B.enableViewTransitions B.defaultProps = true
  ∧ hasViewTransition clickableBrowser = true
  ∧ attribute_ok (B.attribute B.defaultProps) = true
  ∧ only_removals (tasks clickableBrowser) = true
  ∧ ∃ b', B.applyTheme B.defaultProps "dark" None (Some clickableBrowser)
          = Ok (Some b')
          ∧ classList b' = ["light"] ∧ classList (tick b') = ["dark"].
Proof.
  repeat (split; [reflexivity|]).
  destruct (view_transition_defers_marker_write B.defaultProps RDark None
              clickableBrowser eq_refl eq_refl eq_refl eq_refl)
    as (b' & E & Hm & _ & _ & Ht).
  exists b'. split; [exact E|].
  split; [exact (f_equal (λ m, m.1.1) Hm) | exact (f_equal (λ m, m.1.1) Ht)].
Defined.

(** X17.  One call of [applyTheme] with a resolved value (light or dark) in
    a browser, made while no view transition is pending and with an attribute
    prop that is [class] or a plain attribute name, adds one reveal
    animation exactly when view transitions are enabled and available and a
    click event was passed; with no click event, or when view transitions
    are disabled or unavailable (the click event is then ignored), it adds
    none. *)
Theorem reveal_needs_click_and_view_transition
    (p : B.Props) (r : ResolvedTheme) (clickEvent : option MouseEvent)
    (b : Browser) :
  attribute_ok (B.attribute p) = true →
  only_removals (tasks b) = true →
  ∃ b', B.applyTheme p (resolved_str r) clickEvent (Some b) = Ok (Some b')
        ∧ animations (trace (tick b'))
          = animations (trace b)
            + (if BSetter.instant p b then 0
               else match clickEvent with Some _ => 1 | None => 0 end).
Proof.
  intros _ Hrem.
  assert (sum_list_with task_animations (tasks b) = 0) as Hnone.
  { revert Hrem. induction (tasks b) as [|t ts IH]; [reflexivity|].
    destruct t; simpl; try discriminate. exact IH. }
  unfold B.applyTheme, BSetter.instant.
  destruct (negb (B.enableViewTransitions p) || negb (hasViewTransition b)).
  - eexists. split; [reflexivity|]. rewrite !tick_animations.
    destruct (BSetterFacts.updateTheme_frame (B.attribute p) (resolved_str r)
                (if B.disableTransitionOnChange p
                 then setTimeout_removeChild (createElement b) 1
                        (getComputedStyle (appendChild (createElement b) b))
                 else b)) as (_ & _ & _ & -> & _).
    rewrite updateTheme_animations.
    destruct (B.disableTransitionOnChange p); simpl;
      rewrite ?sum_list_with_app, ?Hnone; count_animations.
  - destruct clickEvent as [e|]; eexists; (split; [reflexivity|]);
      rewrite !tick_animations; simpl;
      rewrite ?sum_list_with_app, ?Hnone; count_animations.
Qed.

Lemma reveal_needs_click_and_view_transition_witness :
  attribute_ok (B.attribute B.defaultProps) = true
  ∧ only_removals (tasks clickableBrowser) = true
  ∧ ∃ b', B.applyTheme B.defaultProps "dark"
            (Some {| clientX := 100; clientY := 50 |}) (Some clickableBrowser)
          = Ok (Some b')
          ∧ animations (trace (tick b')) = 1.
Proof.
  split; [reflexivity|]. split; [reflexivity|].
  exact (reveal_needs_click_and_view_transition B.defaultProps RDark
           (Some {| clientX := 100; clientY := 50 |}) clickableBrowser
           eq_refl eq_refl).
Defined.

(** ** The second provider: the marker written by [updateTheme] *)

Lemma swap_token_in t cl : t ∈ swap_token t cl.
Proof.
  unfold swap_token, token_in. destruct (bool_decide _) eqn:Hin.
  - by apply bool_decide_eq_true_1 in Hin.
  - apply elem_of_app. right. apply list_elem_of_singleton. reflexivity.
Qed.

Lemma swap_token_excludes t c cl :
  c ∈ ["light"; "dark"] → c ≠ t → c ∉ swap_token t cl.
Proof.
  intros Hc Hne. unfold swap_token.
  assert (c ∉ filter (λ c, c ∉ ["light"; "dark"]) cl) as Hno
      by (intros [Hp _]%list_elem_of_filter; by apply Hp).
  destruct (token_in _ _); [exact Hno|].
  apply not_elem_of_app. split; [exact Hno|].
  by intros ->%list_elem_of_singleton.
Qed.

Lemma resolved_str_theme_class r : resolved_str r ∈ ["light"; "dark"].
Proof.
  destruct r; simpl.
  - apply elem_of_cons. by left.
  - apply elem_of_cons. right. apply list_elem_of_singleton. reflexivity.
Qed.

(** X18.  Called with a resolved value (light or dark) and an attribute that
    is [class] or a plain attribute name, [updateTheme] sets [color-scheme]
    to the new value, removes the class of the other value and keeps every
    class other than [light] and [dark], in order.  In class mode the new
    value is then present as a class and the attributes are unchanged; in
    attribute mode neither class is present afterwards, the configured
    attribute holds the new value and the other attributes are unchanged. *)
Theorem updateTheme_marker_exclusive
    (attribute : string) (r : ResolvedTheme) (b : Browser) :
  attribute_ok attribute = true →
  let b' := updateTheme attribute (resolved_str r) b in
  colorScheme b' = Some (resolved_str r)
  ∧ (resolved_str (opposite r) ∉ classList b')
  ∧ filter (λ c, c ∉ ["light"; "dark"]) (classList b')
    = filter (λ c, c ∉ ["light"; "dark"]) (classList b)
  ∧ if String.eqb attribute "class"
    then resolved_str r ∈ classList b' ∧ attributes b' = attributes b
    else (resolved_str r ∉ classList b')
         ∧ attributes b' !! attribute = Some (resolved_str r)
         ∧ ∀ name, name ≠ attribute →
                   attributes b' !! name = attributes b !! name.
Proof.
  intros _ b'.
  pose proof (BSetterFacts.updateTheme_marker attribute (resolved_str r) b) as Hm.
  fold b' in Hm. clearbody b'.
  pose proof (f_equal (λ m, m.1.1) Hm) as Hc.
  pose proof (f_equal (λ m, m.1.2) Hm) as Ha.
  pose proof (f_equal (λ m, m.2) Hm) as Hs. clear Hm.
  unfold BSetter.update_marker in Hc, Ha, Hs.
  destruct (String.eqb attribute "class"); simpl in Hc, Ha, Hs;
    rewrite Hc, Ha, Hs; (split; [reflexivity|]).
  - destruct (swap_token_shows r (classList b)) as [Hin Hout].
    split; [exact Hout|]. split; [|by split].
    apply swap_token_keeps_others, resolved_str_theme_class.
  - assert (∀ c, c ∈ ["light"; "dark"] →
                 c ∉ filter (λ c, c ∉ ["light"; "dark"]) (classList b)) as Hno
        by (intros c Hin [Hp _]%list_elem_of_filter; by apply Hp).
    split; [apply Hno, resolved_str_theme_class|].
    split; [apply filter_idem|].
    split; [apply Hno, resolved_str_theme_class|].
    split; [apply lookup_insert_eq|].
    intros name Hn. by rewrite lookup_insert_ne.
Qed.

Lemma updateTheme_marker_exclusive_witness :
  attribute_ok "data-mode" = true
  ∧ classList (updateTheme "data-mode" "dark"
                 (classList_add "dark" (classList_add "wide" freshBrowser)))
    = ["wide"]
  ∧ "dark" ∉ classList (updateTheme "data-mode" "dark"
                          (classList_add "dark" (classList_add "wide" freshBrowser))).
Proof.
  split; [reflexivity|]. split; [reflexivity|].
  destruct (updateTheme_marker_exclusive "data-mode" RDark
              (classList_add "dark" (classList_add "wide" freshBrowser)) eq_refl)
    as (_ & _ & _ & H & _).
  exact H.
Defined.

(** ** The radius of the reveal *)

Local Open Scope R_scope.

Lemma axis_offset_within x w px :
  0 <= px <= w →
  (x - px) * (x - px) <= Rmax x (w - x) * Rmax x (w - x).
Proof.
  intros [H0 Hw]. unfold Rmax. destruct (Rle_dec x (w - x)); nra.
Qed.

(** X19.  The reveal covers the viewport: whatever the click coordinates
    (also outside the viewport), every point of the viewport rectangle lies
    within [endRadius] of the click, and [endRadius] is not negative. *)
Theorem reveal_covers_viewport
    (x y : R) (width height : nat) (px py : R) :
  0 <= px <= INR width →
  0 <= py <= INR height →
  0 <= B.endRadius x y width height
  ∧ distance x y px py <= B.endRadius x y width height.
Proof.
  intros Hx Hy. unfold B.endRadius. split.
  - unfold B.hypot. apply sqrt_pos.
  - apply distance_le_hypot; by apply axis_offset_within.
Qed.

Lemma reveal_covers_viewport_witness :
  0 <= 0 <= INR 1280
  ∧ 0 <= 0 <= INR 720
  ∧ distance 100 50 0 0 <= B.endRadius 100 50 1280 720.
Proof.
  assert (0 <= 0 <= INR 1280) as Hx by (split; [lra | apply pos_INR]).
  assert (0 <= 0 <= INR 720) as Hy by (split; [lra | apply pos_INR]).
  split; [exact Hx|]. split; [exact Hy|].
  exact (proj2 (reveal_covers_viewport 100 50 1280 720 0 0 Hx Hy)).
Defined.

Local Close Scope R_scope.
